(** * PCIe device collector and pci.ids loader of node_exporter:
      a shallow embedding and its properties

    Sources embedded here:
    - [src/collector/pcie_linux.go]: the pci.ids loader [loadPCIIds], the
      name resolvers [getPCIVendorName], [getPCIDeviceName],
      [getPCISubsystemName], [getPCIClassName], the value normalizers
      [parseSpeed], [parseWidth], [parsePowerState], the attribute reader
      [readFileContent] and the per-device collector [collectDeviceMetrics];
    - [src/collector/systemdservices_linux.go] and [src/unnamed/part_000]:
      the two variants of the systemd service collector.

    Go strings are byte strings: they are modelled by [string], whose
    characters are the 256 byte values. Go maps with string keys are
    [gmap string _]. A [float64] is kept as the exact rational it denotes. *)

From Stdlib Require Import ZArith QArith Ascii String List Lia.
From stdpp Require Import base option strings gmap.

Close Scope Q_scope.
Open Scope Z_scope.

(** ** Bytes *)

Definition byte_in (lo hi c : ascii) : bool :=
  (N_of_ascii lo <=? N_of_ascii c)%N && (N_of_ascii c <=? N_of_ascii hi)%N.

Definition tab : string := String "009"%char "".

(** ** Package [strings] of the Go standard library

    Only the functions used by the collectors. All of them work on bytes,
    except [ToLower] and [TrimSpace], which Go defines on the runes of the
    UTF-8 decoding of the string. *)

Fixpoint HasPrefix (s prefix : string) {struct prefix} : bool :=
  match prefix, s with
  | EmptyString, _ => true
  | String p prefix', String c s' => Ascii.eqb c p && HasPrefix s' prefix'
  | String _ _, EmptyString => false
  end.

Fixpoint drop_bytes (n : nat) (s : string) : string :=
  match n, s with
  | O, _ => s
  | S n', String _ s' => drop_bytes n' s'
  | S _, EmptyString => EmptyString
  end.

Fixpoint take_bytes (n : nat) (s : string) : string :=
  match n, s with
  | O, _ => EmptyString
  | S n', String c s' => String c (take_bytes n' s')
  | S _, EmptyString => EmptyString
  end.

Definition TrimPrefix (s prefix : string) : string :=
  if HasPrefix s prefix then drop_bytes (String.length prefix) s else s.

Definition HasSuffix (s suffix : string) : bool :=
  HasPrefix (String.rev s) (String.rev suffix).

Definition TrimSuffix (s suffix : string) : string :=
  if HasSuffix s suffix
  then take_bytes (String.length s - String.length suffix) s
  else s.

(** [strings.ToLower]. On a string of ASCII bytes Go maps ['A'..'Z'] to
    ['a'..'z'] byte by byte, which is what this definition does. On other
    strings Go lowers the runes of the UTF-8 decoding with the Unicode
    tables; those tables are not modelled, and bytes from 0x80 up are left
    as they are. *)
Definition lower_byte (c : ascii) : ascii :=
  if byte_in "A" "Z" c then ascii_of_N (N_of_ascii c + 32) else c.

Fixpoint ToLower (s : string) : string :=
  match s with
  | EmptyString => EmptyString
  | String c s' => String (lower_byte c) (ToLower s')
  end.

(** [strings.TrimSpace] removes leading and trailing white space as
    Unicode defines it: the ASCII bytes tab, line feed, vertical tab, form
    feed, carriage return and space, and the UTF-8 encodings of U+0085,
    U+00A0, U+1680, U+2000..U+200A, U+2028, U+2029, U+202F, U+205F and
    U+3000. [space_len s] is the length in bytes of the white-space rune
    [s] starts with, 0 when it starts with none. *)
Definition ascii_space (c : ascii) : bool :=
  byte_in "009" "013" c || Ascii.eqb c " ".

Definition space_len (s : string) : nat :=
  match s with
  | EmptyString => 0
  | String c0 r0 =>
      if ascii_space c0 then 1
      else match r0 with
      | EmptyString => 0
      | String c1 r1 =>
          if Ascii.eqb c0 "194" then
            if Ascii.eqb c1 "133" || Ascii.eqb c1 "160" then 2 else 0
          else match r1 with
          | EmptyString => 0
          | String c2 _ =>
              if Ascii.eqb c0 "225" then
                if Ascii.eqb c1 "154" && Ascii.eqb c2 "128" then 3 else 0
              else if Ascii.eqb c0 "226" then
                if Ascii.eqb c1 "128"
                then (if byte_in "128" "138" c2 || byte_in "168" "169" c2
                         || Ascii.eqb c2 "175" then 3 else 0)
                else if Ascii.eqb c1 "129" && Ascii.eqb c2 "159" then 3 else 0
              else if Ascii.eqb c0 "227" then
                if Ascii.eqb c1 "128" && Ascii.eqb c2 "128" then 3 else 0
              else 0
          end
      end
  end%nat.

(** The white-space runes in front of [s] are dropped one at a time; the
    fuel is the length of [s], which bounds their number. *)
Fixpoint trim_left_fuel (fuel : nat) (s : string) : string :=
  match fuel with
  | O => s
  | S fuel' =>
      match space_len s with
      | O => s
      | S n => trim_left_fuel fuel' (drop_bytes (S n) s)
      end
  end.

Definition TrimLeftSpace (s : string) : string :=
  trim_left_fuel (String.length s) s.

(** From the right the runes are read backwards: the last rune is a
    white-space rune when the string ends with one of the encodings above. *)
Definition space_len_back (s : string) : nat :=
  let r := String.rev s in
  if (space_len (take_bytes 1 r) =? 1)%nat then 1
  else if (space_len (String.rev (take_bytes 2 r)) =? 2)%nat then 2
  else if (space_len (String.rev (take_bytes 3 r)) =? 3)%nat then 3
  else 0%nat.

Fixpoint trim_right_fuel (fuel : nat) (s : string) : string :=
  match fuel with
  | O => s
  | S fuel' =>
      match space_len_back s with
      | O => s
      | S n => trim_right_fuel fuel' (take_bytes (String.length s - S n) s)
      end
  end.

Definition TrimRightSpace (s : string) : string :=
  trim_right_fuel (String.length s) s.

Definition TrimSpace (s : string) : string :=
  TrimRightSpace (TrimLeftSpace s).

(** [strings.SplitN(s, sep, 2)] for a non-empty [sep]: the text before the
    first occurrence of [sep] and the text after it, or [s] alone when
    [sep] does not occur. [cut s sep] finds the first occurrence. *)
Fixpoint cut (s sep : string) : option (string * string) :=
  if HasPrefix s sep then Some (EmptyString, drop_bytes (String.length sep) s)
  else match s with
  | EmptyString => None
  | String c s' =>
      match cut s' sep with
      | Some (before, after) => Some (String c before, after)
      | None => None
      end
  end.

Definition SplitN2 (s sep : string) : list string :=
  match cut s sep with
  | Some (before, after) => [before; after]
  | None => [s]
  end.

(** [fmt.Sprintf("%s:%s", a, b)]. *)
Definition Sprintf_colon (a b : string) : string := a +:+ ":" +:+ b.

(** ** The lookup tables of [pcie_linux.go]

    The five package-level maps [pciVendors], [pciDevices],
    [pciSubsystems], [pciClasses] and [pciSubclasses]. *)

Record Tables : Type := mkTables {
  pciVendors : gmap string string;
  pciDevices : gmap string (gmap string string);
  pciSubsystems : gmap string (gmap string string);
  pciClasses : gmap string string;
  pciSubclasses : gmap string string
}.

Definition emptyTables : Tables := mkTables ∅ ∅ ∅ ∅ ∅.

Definition set_pciVendors (f : gmap string string → gmap string string)
    (t : Tables) : Tables :=
  mkTables (f (pciVendors t)) (pciDevices t) (pciSubsystems t)
           (pciClasses t) (pciSubclasses t).

Definition set_pciDevices
    (f : gmap string (gmap string string) → gmap string (gmap string string))
    (t : Tables) : Tables :=
  mkTables (pciVendors t) (f (pciDevices t)) (pciSubsystems t)
           (pciClasses t) (pciSubclasses t).

Definition set_pciSubsystems
    (f : gmap string (gmap string string) → gmap string (gmap string string))
    (t : Tables) : Tables :=
  mkTables (pciVendors t) (pciDevices t) (f (pciSubsystems t))
           (pciClasses t) (pciSubclasses t).

Definition set_pciClasses (f : gmap string string → gmap string string)
    (t : Tables) : Tables :=
  mkTables (pciVendors t) (pciDevices t) (pciSubsystems t)
           (f (pciClasses t)) (pciSubclasses t).

Definition set_pciSubclasses (f : gmap string string → gmap string string)
    (t : Tables) : Tables :=
  mkTables (pciVendors t) (pciDevices t) (pciSubsystems t)
           (pciClasses t) (f (pciSubclasses t)).

(** [m[outer][inner] = v] on a map of maps, the inner map being made when
    [m[outer]] is nil. *)
Definition insert2 (outer inner v : string)
    (m : gmap string (gmap string string)) : gmap string (gmap string string) :=
  <[outer := <[inner := v]> (default ∅ (m !! outer))]> m.

(** ** The loader [loadPCIIds]

    The four local variables of the scanning loop. *)

Record Locals : Type := mkLocals {
  currentVendor : string;
  currentDevice : string;
  currentBaseClass : string;
  currentSubclass : string
}.

Definition initLocals : Locals := mkLocals "" "" "" "".

Definition nonempty (s : string) : bool := negb (String.eqb s "").

(** One iteration of the loop [for scanner.Scan()], on the line
    [scanner.Text()]. The tests come in the order of the source, and a
    [continue] ends the iteration with the state reached so far. *)
Definition scanLine (l : Locals) (t : Tables) (line : string) : Locals * Tables :=
  if String.eqb line "" || HasPrefix line "#" then (l, t)
  else if HasPrefix line "C" then
    (* class lines *)
    let parts := SplitN2 line "  " in
    if (2 <=? length parts)%nat then
      let classID := TrimSpace (drop_bytes 1 (nth 0 parts "")) in
      let className := TrimSpace (nth 1 parts "") in
      (mkLocals (currentVendor l) (currentDevice l) classID "",
       set_pciClasses <[classID := className]> t)
    else (l, t)
  else if HasPrefix line tab && negb (HasPrefix line (tab +:+ tab)) then
    (* subclass lines (single tab after class) *)
    let line := TrimPrefix line tab in
    let parts := SplitN2 line "  " in
    if (2 <=? length parts)%nat && nonempty (currentBaseClass l) then
      let subclassID := TrimSpace (nth 0 parts "") in
      let subclassName := TrimSpace (nth 1 parts "") in
      let fullClassID := currentBaseClass l +:+ subclassID in
      (mkLocals (currentVendor l) (currentDevice l) (currentBaseClass l) fullClassID,
       set_pciSubclasses <[fullClassID := subclassName]> t)
    else (l, t)
  else if HasPrefix line (tab +:+ tab)
          && negb (HasPrefix line (tab +:+ tab +:+ tab)) then
    (* programming interface lines (double tab after subclass): skipped *)
    (l, t)
  else if negb (HasPrefix line tab) && negb (HasPrefix line "C") then
    (* vendor lines *)
    let parts := SplitN2 line "  " in
    if (2 <=? length parts)%nat then
      let vendor := TrimSpace (nth 0 parts "") in
      (mkLocals vendor "" (currentBaseClass l) (currentSubclass l),
       set_pciVendors <[vendor := TrimSpace (nth 1 parts "")]> t)
    else (l, t)
  else if HasPrefix line tab && negb (HasPrefix line (tab +:+ tab)) then
    (* device lines (single tab) *)
    let line := TrimPrefix line tab in
    let parts := SplitN2 line "  " in
    if (2 <=? length parts)%nat && nonempty (currentVendor l) then
      let device := TrimSpace (nth 0 parts "") in
      (mkLocals (currentVendor l) device (currentBaseClass l) (currentSubclass l),
       set_pciDevices
         (insert2 (currentVendor l) device (TrimSpace (nth 1 parts ""))) t)
    else (l, t)
  else if HasPrefix line (tab +:+ tab) then
    (* subsystem lines (double tab) *)
    let line := TrimPrefix line (tab +:+ tab) in
    let parts := SplitN2 line "  " in
    if (2 <=? length parts)%nat && nonempty (currentVendor l)
       && nonempty (currentDevice l) then
      let subsysID := TrimSpace (nth 0 parts "") in
      let subsysName := TrimSpace (nth 1 parts "") in
      let key := Sprintf_colon (currentVendor l) (currentDevice l) in
      (l, set_pciSubsystems (insert2 key subsysID subsysName) t)
    else (l, t)
  else (l, t).

(** The whole loop, over the lines the scanner yields. *)
Fixpoint scanLines (l : Locals) (t : Tables) (lines : list string) : Locals * Tables :=
  match lines with
  | [] => (l, t)
  | line :: rest => let '(l', t') := scanLine l t line in scanLines l' t' rest
  end.

Definition pciIdsPaths : list string :=
  ["/usr/share/misc/pci.ids"; "/usr/share/hwdata/pci.ids"].

(** [os.Open] followed by [bufio.NewScanner]: a file system [open] gives,
    for a path that opens, the lines the scanner yields. The first loop of
    [loadPCIIds] keeps the first path that opens. *)
Fixpoint openFirst (open : string → option (list string)) (paths : list string)
    : option (list string) :=
  match paths with
  | [] => None
  | path :: rest =>
      match open path with
      | Some lines => Some lines
      | None => openFirst open rest
      end
  end.

Definition loadPCIIds (open : string → option (list string)) (t : Tables) : Tables :=
  match openFirst open pciIdsPaths with
  | None => t
  | Some lines => (scanLines initLocals t lines).2
  end.

Definition loadLines (lines : list string) (t : Tables) : Tables :=
  (scanLines initLocals t lines).2.

(** ** The name resolvers *)

Definition getPCIVendorName (t : Tables) (vendorID : string) : string :=
  let vendorID := TrimPrefix vendorID "0x" in
  let vendorID := ToLower vendorID in
  match pciVendors t !! vendorID with
  | Some name => name
  | None => vendorID
  end.

Definition getPCIDeviceName (t : Tables) (vendorID deviceID : string) : string :=
  let vendorID := TrimPrefix vendorID "0x" in
  let deviceID := TrimPrefix deviceID "0x" in
  let vendorID := ToLower vendorID in
  let deviceID := ToLower deviceID in
  match pciDevices t !! vendorID with
  | Some devices =>
      match devices !! deviceID with
      | Some name => name
      | None => deviceID
      end
  | None => deviceID
  end.

Definition getPCISubsystemName (t : Tables)
    (vendorID deviceID subsysVendorID subsysDeviceID : string) : string :=
  let vendorID := TrimPrefix vendorID "0x" in
  let deviceID := TrimPrefix deviceID "0x" in
  let subsysVendorID := TrimPrefix subsysVendorID "0x" in
  let subsysDeviceID := TrimPrefix subsysDeviceID "0x" in
  let key := Sprintf_colon vendorID deviceID in
  let subsysKey := Sprintf_colon subsysVendorID subsysDeviceID in
  match pciSubsystems t !! key with
  | Some subsystems =>
      match subsystems !! subsysKey with
      | Some name => name
      | None => subsysDeviceID
      end
  | None => subsysDeviceID
  end.

Definition getPCIClassName (t : Tables) (classID : string) : string :=
  let classID := TrimPrefix classID "0x" in
  let classID := ToLower classID in
  let unknown := "Unknown class (" +:+ classID +:+ ")" in
  let base :=
    if (2 <=? String.length classID)%nat then
      let baseClass := take_bytes 2 classID in
      match pciClasses t !! baseClass with
      | Some className => className
      | None => unknown
      end
    else unknown in
  if (4 <=? String.length classID)%nat then
    match pciSubclasses t !! classID with
    | Some className => className
    | None => base
    end
  else base.

(** ** [float64] and [strconv.ParseFloat]

    A finite [float64] is kept as the exact rational it stands for, in
    lowest terms, so that equal values are equal terms. The rounding of a
    parsed literal to the nearest binary64 and the sign of zero are not
    modelled; the constants of the collectors (0 to 8 and -1) are exact. *)

Inductive float64 : Type :=
  | FNum (q : Q)
  | FInf (negative : bool)
  | FNaN.

Definition float_of_Z (z : Z) : float64 := FNum (inject_Z z).

(** A Go result [(float64, error)]: the value when the error is nil, the
    error otherwise (no caller reads the value beside a non-nil error).
    [ErrSyntax] and [ErrRange] are the two errors of [strconv];
    [Errorf msg] is [fmt.Errorf] with its formatted message. *)
Inductive error : Type :=
  | ErrSyntax
  | ErrRange
  | Errorf (msg : string).

Inductive result : Type :=
  | Ok (v : float64)
  | Failed (err : error).

Definition succeeds (r : result) : bool :=
  match r with Ok _ => true | Failed _ => false end.

(** [lower(c)] of package [strconv]: [c | ('x' ^ 'X')]. *)
Definition lower (c : ascii) : ascii := ascii_of_N (N.lor (N_of_ascii c) 32).

Definition is_digit (c : ascii) : bool := byte_in "0" "9" c.
Definition is_hex_letter (c : ascii) : bool := byte_in "a" "f" (lower c).

Definition digit_val (c : ascii) : N :=
  if is_digit c then N_of_ascii c - 48 else N_of_ascii (lower c) - 87.

Fixpoint commonPrefixLenIgnoreCase (s prefix : string) : nat :=
  match s, prefix with
  | String c s', String p prefix' =>
      if Ascii.eqb (lower_byte c) p
      then S (commonPrefixLenIgnoreCase s' prefix') else O
  | _, _ => O
  end.

(** [special]: the infinities, with an optional sign, and NaN, without.
    The result is the value and the number of bytes read. *)
Definition special_inf (negative : bool) (nsign : nat) (s : string)
    : option (float64 * nat) :=
  let n := commonPrefixLenIgnoreCase s "infinity" in
  let n := if (3 <? n)%nat && (n <? 8)%nat then 3%nat else n in
  if (n =? 3)%nat || (n =? 8)%nat then Some (FInf negative, (nsign + n)%nat)
  else None.

Definition special (s : string) : option (float64 * nat) :=
  match s with
  | EmptyString => None
  | String c s' =>
      if Ascii.eqb c "+" then special_inf false 1 s'
      else if Ascii.eqb c "-" then special_inf true 1 s'
      else if Ascii.eqb c "i" || Ascii.eqb c "I" then special_inf false 0 s
      else if Ascii.eqb c "n" || Ascii.eqb c "N" then
        if (commonPrefixLenIgnoreCase s "nan" =? 3)%nat
        then Some (FNaN, 3%nat) else None
      else None
  end.

(** The mantissa loop of [readFloat]: the digits read so far as a number
    in the base, how many of them came after the point, and what the loop
    saw. *)
Record Mantissa : Type := mkMantissa {
  mant : N;
  fracDigits : nat;
  sawdot : bool;
  sawdigits : bool;
  underscores : bool
}.

Fixpoint readMantissa (hex : bool) (s : string) (m : Mantissa) : Mantissa * string :=
  match s with
  | EmptyString => (m, s)
  | String c s' =>
      if Ascii.eqb c "_" then
        readMantissa hex s'
          (mkMantissa (mant m) (fracDigits m) (sawdot m) (sawdigits m) true)
      else if Ascii.eqb c "." then
        if sawdot m then (m, s)
        else readMantissa hex s'
               (mkMantissa (mant m) (fracDigits m) true (sawdigits m) (underscores m))
      else if is_digit c || (hex && is_hex_letter c) then
        readMantissa hex s'
          (mkMantissa (mant m * (if hex then 16 else 10) + digit_val c)
                      (if sawdot m then S (fracDigits m) else fracDigits m)
                      (sawdot m) true (underscores m))
      else (m, s)
  end.

(** The digits of the exponent; past 10000 further digits are ignored. *)
Fixpoint readExpDigits (s : string) (e : Z) (us : bool) : Z * bool * string :=
  match s with
  | EmptyString => (e, us, s)
  | String c s' =>
      if Ascii.eqb c "_" then readExpDigits s' e true
      else if is_digit c then
        readExpDigits s'
          (if e <? 10000 then e * 10 + Z.of_N (digit_val c) else e) us
      else (e, us, s)
  end.

(** The optional exponent: [None] when it is malformed or, for a
    hexadecimal mantissa, missing. *)
Definition readExponent (hex : bool) (s : string) : option (Z * bool * string) :=
  match s with
  | String c s' =>
      if Ascii.eqb (lower c) (if hex then "p" else "e") then
        match s' with
        | EmptyString => None
        | String c1 s1 =>
            let '(esign, s2) :=
              if Ascii.eqb c1 "+" then (1, s1)
              else if Ascii.eqb c1 "-" then (-1, s1)
              else (1, s') in
            match s2 with
            | EmptyString => None
            | String d _ =>
                if is_digit d then
                  let '(e, us, rest) := readExpDigits s2 0 false in
                  Some (e * esign, us, rest)
                else None
            end
        end
      else if hex then None else Some (0, false, s)
  | EmptyString => if hex then None else Some (0, false, s)
  end.

(** [underscoreOK]: an underscore stands between two digits, or between
    the base prefix and a digit. [saw] is the last byte seen: a digit
    ([SawDigit]), an underscore, or anything else. *)
Inductive Saw : Type := SawStart | SawDigit | SawUnderscore | SawOther.

Fixpoint underscoreLoop (hex : bool) (saw : Saw) (s : string) : bool :=
  match s with
  | EmptyString => match saw with SawUnderscore => false | _ => true end
  | String c s' =>
      if is_digit c || (hex && is_hex_letter c) then underscoreLoop hex SawDigit s'
      else if Ascii.eqb c "_" then
        match saw with
        | SawDigit => underscoreLoop hex SawUnderscore s'
        | _ => false
        end
      else
        match saw with
        | SawUnderscore => false
        | _ => underscoreLoop hex SawOther s'
        end
  end.

Definition underscoreOK (s : string) : bool :=
  let s := match s with
           | String c s' => if Ascii.eqb c "-" || Ascii.eqb c "+" then s' else s
           | EmptyString => s
           end in
  match s with
  | String c0 (String c1 s') =>
      if Ascii.eqb c0 "0"
         && (Ascii.eqb (lower c1) "b" || Ascii.eqb (lower c1) "o"
             || Ascii.eqb (lower c1) "x")
      then underscoreLoop (Ascii.eqb (lower c1) "x") SawDigit s'
      else underscoreLoop false SawStart s
  | _ => underscoreLoop false SawStart s
  end.

(** The value [m * base^k] of a literal, [base] being 10, or 2 for a
    hexadecimal mantissa. *)
Definition scaled (m : Z) (base : Z) (k : Z) : Q :=
  if 0 <=? k then inject_Z (m * base ^ k)
  else Qred (Qmake m (Z.to_pos (base ^ (- k)))).

(** A literal at or above this bound rounds to an infinity, which
    [ParseFloat] reports as a range error: half way between the largest
    binary64 and 2^1024. *)
Definition overflow_bound : Q := inject_Z (2 ^ 1024 - 2 ^ 970).

(** [readFloat] on the whole of [s], followed by the conversion. *)
Definition readFloat (s : string) : result :=
  match s with
  | EmptyString => Failed ErrSyntax
  | String c s' =>
      let '(negative, s1) :=
        if Ascii.eqb c "+" then (false, s')
        else if Ascii.eqb c "-" then (true, s')
        else (false, s) in
      let '(hex, s2) :=
        match s1 with
        | String c0 (String c1 (String c2 r)) =>
            if Ascii.eqb c0 "0" && Ascii.eqb (lower c1) "x"
            then (true, String c2 r) else (false, s1)
        | _ => (false, s1)
        end in
      let '(m, s3) := readMantissa hex s2 (mkMantissa 0 0 false false false) in
      if negb (sawdigits m) then Failed ErrSyntax
      else
        match readExponent hex s3 with
        | None => Failed ErrSyntax
        | Some (e, us, rest) =>
            if negb (String.eqb rest "") then Failed ErrSyntax
            else if (underscores m || us) && negb (underscoreOK s)
            then Failed ErrSyntax
            else
              let q :=
                if hex then scaled (Z.of_N (mant m)) 2 (e - 4 * Z.of_nat (fracDigits m))
                else scaled (Z.of_N (mant m)) 10 (e - Z.of_nat (fracDigits m)) in
              if Qle_bool overflow_bound q then Failed ErrRange
              else Ok (FNum (if negative then Qred (- q) else q))
        end
  end.

(** [strconv.ParseFloat(s, 64)]. *)
Definition ParseFloat (s : string) : result :=
  match special s with
  | Some (v, n) => if (n =? String.length s)%nat then Ok v else Failed ErrSyntax
  | None => readFloat s
  end.

(** ** The value normalizers of [pcie_linux.go] *)

Definition parseSpeed (speedStr : string) : result :=
  let speedStr := TrimSuffix speedStr " GT/s PCIe" in
  let speedStr := TrimSuffix speedStr " GT/s" in
  let speedStr := TrimSpace speedStr in
  ParseFloat speedStr.

Definition parseWidth (widthStr : string) : result :=
  let widthStr := TrimPrefix widthStr "x" in
  let widthStr := TrimSpace widthStr in
  ParseFloat widthStr.

(** The [switch] of [parsePowerState] on the lowered text. *)
Definition powerStateSwitch (powerStateStr : string) : result :=
  let s := ToLower powerStateStr in
  if String.eqb s "d0" || String.eqb s "0" then Ok (float_of_Z 0)
  else if String.eqb s "d1" || String.eqb s "1" then Ok (float_of_Z 1)
  else if String.eqb s "d2" || String.eqb s "2" then Ok (float_of_Z 2)
  else if String.eqb s "d3hot" || String.eqb s "3" then Ok (float_of_Z 3)
  else if String.eqb s "d3cold" || String.eqb s "4" then Ok (float_of_Z 4)
  else Failed (Errorf ("unknown power state: " +:+ powerStateStr)).

Definition parsePowerState (powerStateStr : string) : result :=
  let powerStateStr := TrimSpace powerStateStr in
  match ParseFloat powerStateStr with
  | Ok powerState => Ok powerState
  | Failed _ => powerStateSwitch powerStateStr
  end.

(** ** Observations

    [prometheus.MustNewConstMetric(desc, prometheus.GaugeValue, value,
    labelValues...)] is the observation itself; sending it on the channel
    [ch] appends it to the observations sent so far. The descriptors are
    built with as many label names as the calls give values; the panic of
    the client library on a label value that is not valid UTF-8 is outside
    the model. A call of [logger.Debug] appends its message, the device or
    unit it names and the raw value to the log. *)

Record Metric (D : Type) : Type := mkMetric {
  desc : D;
  value : float64;
  labelValues : list string
}.
Arguments mkMetric {D} _ _ _.
Arguments desc {D} _.
Arguments value {D} _.
Arguments labelValues {D} _.

Record LogEntry : Type := mkLogEntry {
  logMsg : string;
  logSubject : string;
  logValue : string
}.

Record Sink (D : Type) : Type := mkSink {
  ch : list (Metric D);
  logged : list LogEntry
}.
Arguments mkSink {D} _ _.
Arguments ch {D} _.
Arguments logged {D} _.

Definition send {D} (m : Metric D) (s : Sink D) : Sink D :=
  mkSink (ch s ++ [m]) (logged s).

Definition Debug {D} (msg subject val : string) (s : Sink D) : Sink D :=
  mkSink (ch s) (logged s ++ [mkLogEntry msg subject val]).

(** ** The attribute reader

    The inventory file system maps the paths [os.ReadFile] can read to
    their content; a path that is not in the map is a missing or unreadable
    file. *)

Definition readFileContent (fs : gmap string string) (path : string) : string :=
  match fs !! path with
  | None => "unknown"
  | Some content => TrimSpace content
  end.

(** [filepath.Join(dir, name)] for a clean directory path and a plain file
    name: the two joined by the separator ([filepath.Clean] changes
    nothing then). *)
Definition Join (dir name : string) : string :=
  if String.eqb dir "" then name else dir +:+ "/" +:+ name.

(** ** The PCIe collector [pcieCollector] *)

Inductive pcieDesc : Type :=
  | info | currentSpeed | currentWidth | maxSpeed | maxWidth
  | powerState | d3coldAllowed.

Global Instance pcieDesc_eq_dec : EqDecision pcieDesc.
Proof. solve_decision. Defined.

(** One block [if str := readFileContent(...); str != "unknown" { ... }] of
    [collectDeviceMetrics]: the six blocks differ in the attribute file, the
    normalizer, the descriptor and the message only. *)
Definition numericBlock (fs : gmap string string) (devicePath deviceID : string)
    (file : string) (parse : string → result) (d : pcieDesc) (msg : string)
    (s : Sink pcieDesc) : Sink pcieDesc :=
  let str := readFileContent fs (Join devicePath file) in
  if negb (String.eqb str "unknown") then
    match parse str with
    | Ok v => send (mkMetric d v [deviceID]) s
    | Failed _ => Debug msg deviceID str s
    end
  else s.

Definition infoLabels (fs : gmap string string) (t : Tables)
    (devicePath deviceID : string) : list string :=
  let vendorID := readFileContent fs (Join devicePath "vendor") in
  let devID := readFileContent fs (Join devicePath "device") in
  let subsysVendorID := readFileContent fs (Join devicePath "subsystem_vendor") in
  let subsysDeviceID := readFileContent fs (Join devicePath "subsystem_device") in
  let vendor := getPCIVendorName t vendorID in
  let device := getPCIDeviceName t vendorID devID in
  let subsysVendor := getPCIVendorName t subsysVendorID in
  let subsysDevice :=
    getPCISubsystemName t vendorID devID subsysVendorID subsysDeviceID in
  let classIDStr := readFileContent fs (Join devicePath "class") in
  let classID := classIDStr in
  let classString := getPCIClassName t classIDStr in
  [deviceID; vendorID; vendor; devID; device; subsysVendorID; subsysVendor;
   subsysDeviceID; subsysDevice; classID; classString;
   readFileContent fs (Join devicePath "revision")].

(** [collectDeviceMetrics]: the sink after the call and the error it
    returns, which is always nil. *)
Definition collectDeviceMetrics (fs : gmap string string) (t : Tables)
    (devicePath deviceID : string) (s : Sink pcieDesc)
    : Sink pcieDesc * option error :=
  let s := send (mkMetric info (float_of_Z 1) (infoLabels fs t devicePath deviceID)) s in
  let s := numericBlock fs devicePath deviceID "current_link_speed" parseSpeed
             currentSpeed "failed to parse current speed" s in
  let s := numericBlock fs devicePath deviceID "current_link_width" parseWidth
             currentWidth "failed to parse current width" s in
  let s := numericBlock fs devicePath deviceID "max_link_speed" parseSpeed
             maxSpeed "failed to parse max speed" s in
  let s := numericBlock fs devicePath deviceID "max_link_width" parseWidth
             maxWidth "failed to parse max width" s in
  let s := numericBlock fs devicePath deviceID "power_state" parsePowerState
             powerState "failed to parse power state" s in
  let s := numericBlock fs devicePath deviceID "d3cold_allowed" ParseFloat
             d3coldAllowed "failed to parse d3cold_allowed" s in
  (s, None).

(** [filepath.Base]. *)
Fixpoint trimTrailingSlashes (fuel : nat) (path : string) : string :=
  match fuel with
  | O => path
  | S fuel' =>
      if HasSuffix path "/" && negb (String.eqb path "")
      then trimTrailingSlashes fuel' (take_bytes (String.length path - 1) path)
      else path
  end.

Fixpoint lastElement (path : string) : string :=
  match path with
  | EmptyString => EmptyString
  | String c rest =>
      if existsb (Ascii.eqb "/") (list_ascii_of_string rest) then lastElement rest
      else if Ascii.eqb c "/" then rest else path
  end.

Definition Base (path : string) : string :=
  if String.eqb path "" then "."
  else
    let path := trimTrailingSlashes (String.length path) path in
    let path := lastElement path in
    if String.eqb path "" then "/" else path.

(** [Update]: [glob] is the result of
    [filepath.Glob("/sys/bus/pci/devices/*")], [None] when it fails; the
    error returned then wraps the error of [Glob], whose text is left out. *)
Fixpoint updateLoop (fs : gmap string string) (t : Tables) (devices : list string)
    (s : Sink pcieDesc) : Sink pcieDesc :=
  match devices with
  | [] => s
  | devicePath :: rest =>
      let deviceID := Base devicePath in
      match collectDeviceMetrics fs t devicePath deviceID s with
      | (s', Some _) =>
          updateLoop fs t rest
            (Debug "failed collecting metrics for device" deviceID "" s')
      | (s', None) => updateLoop fs t rest s'
      end
  end.

Definition Update (glob : option (list string)) (fs : gmap string string)
    (t : Tables) (s : Sink pcieDesc) : Sink pcieDesc * option error :=
  match glob with
  | None => (s, Some (Errorf "failed to list PCI devices"))
  | Some devices => (updateLoop fs t devices s, None)
  end.

(** ** The systemd service collector, in its two variants

    What both variants share: the unit status [dbus.UnitStatus] (the fields
    the collector reads), the value of a D-Bus property, which is a string
    or something else, and the four descriptors of
    [systemdServicesCollector]. The connection [conn] gives, for a unit
    name, the result of [GetUnitTypePropertyContext(ctx, name, "Service",
    "Type")]: the property value, or [None] for an error. *)

Record UnitStatus : Type := mkUnitStatus {
  Name : string;
  LoadState : string;
  ActiveState : string;
  SubState : string
}.

Inductive Variant : Type :=
  | VString (v : string)
  | VOther.

Inductive systemdDesc : Type :=
  | serviceInfo | serviceState | serviceSubState | serviceLoadState.

Global Instance systemdDesc_eq_dec : EqDecision systemdDesc.
Proof. solve_decision. Defined.

(** A call returns, or panics with the sink as it was then. *)
Inductive outcome (A : Type) : Type :=
  | Returned (a : A)
  | Panicked (s : Sink systemdDesc).
Arguments Returned {A} _.
Arguments Panicked {A} _.

(** [src/collector/systemdservices_linux.go]: an unknown state is 0. *)
Module SystemdServices.

Definition parseSystemdState (state : string) : float64 :=
  let s := ToLower state in
  if String.eqb s "active" then float_of_Z 1
  else if String.eqb s "reloading" then float_of_Z 2
  else if String.eqb s "inactive" then float_of_Z 3
  else if String.eqb s "failed" then float_of_Z 4
  else if String.eqb s "activating" then float_of_Z 5
  else if String.eqb s "deactivating" then float_of_Z 6
  else float_of_Z 0.

Definition parseSystemdSubState (subState : string) : float64 :=
  let s := ToLower subState in
  if String.eqb s "running" then float_of_Z 1
  else if String.eqb s "exited" then float_of_Z 2
  else if String.eqb s "failed" then float_of_Z 3
  else if String.eqb s "dead" then float_of_Z 4
  else if String.eqb s "start" then float_of_Z 5
  else if String.eqb s "stop" then float_of_Z 6
  else if String.eqb s "reload" then float_of_Z 7
  else if String.eqb s "auto-restart" then float_of_Z 8
  else float_of_Z 0.

Definition parseSystemdLoadState (loadState : string) : float64 :=
  let s := ToLower loadState in
  if String.eqb s "loaded" then float_of_Z 1
  else if String.eqb s "error" then float_of_Z 2
  else if String.eqb s "masked" then float_of_Z 3
  else if String.eqb s "not-found" then float_of_Z 4
  else float_of_Z 0.

Definition collectServiceMetrics (conn : string → option Variant)
    (unit : UnitStatus) (s : Sink systemdDesc)
    : outcome (Sink systemdDesc * option error) :=
  let serviceType :=
    match conn (Name unit) with
    | Some (VString v) => if negb (String.eqb v "") then v else "unknown"
    | Some VOther => "unknown"
    | None => "unknown"
    end in
  let s := send (mkMetric serviceInfo (float_of_Z 1) [Name unit; serviceType]) s in
  let stateValue := parseSystemdState (ActiveState unit) in
  let s := send (mkMetric serviceState stateValue [Name unit]) s in
  let subStateValue := parseSystemdSubState (SubState unit) in
  let s := send (mkMetric serviceSubState subStateValue [Name unit]) s in
  let loadStateValue := parseSystemdLoadState (LoadState unit) in
  let s := send (mkMetric serviceLoadState loadStateValue [Name unit]) s in
  Returned (s, None).

End SystemdServices.

(** [src/unnamed/part_000]: an unknown state is an error, and the
    observation is left out. *)
Module Part000.

Definition parseSystemdState (state : string) : result :=
  let s := ToLower state in
  if String.eqb s "active" then Ok (float_of_Z 1)
  else if String.eqb s "reloading" then Ok (float_of_Z 2)
  else if String.eqb s "inactive" then Ok (float_of_Z 3)
  else if String.eqb s "failed" then Ok (float_of_Z 4)
  else if String.eqb s "activating" then Ok (float_of_Z 5)
  else if String.eqb s "deactivating" then Ok (float_of_Z 6)
  else Failed (Errorf ("unknown systemd state: " +:+ state)).

Definition parseSystemdSubState (subState : string) : result :=
  let s := ToLower subState in
  if String.eqb s "running" then Ok (float_of_Z 1)
  else if String.eqb s "exited" then Ok (float_of_Z 2)
  else if String.eqb s "failed" then Ok (float_of_Z 3)
  else if String.eqb s "dead" then Ok (float_of_Z 4)
  else if String.eqb s "start" then Ok (float_of_Z 5)
  else if String.eqb s "stop" then Ok (float_of_Z 6)
  else if String.eqb s "reload" then Ok (float_of_Z 7)
  else if String.eqb s "auto-restart" then Ok (float_of_Z 8)
  else Failed (Errorf ("unknown systemd sub-state: " +:+ subState)).

Definition parseSystemdLoadState (loadState : string) : result :=
  let s := ToLower loadState in
  if String.eqb s "loaded" then Ok (float_of_Z 1)
  else if String.eqb s "error" then Ok (float_of_Z 2)
  else if String.eqb s "masked" then Ok (float_of_Z 3)
  else if String.eqb s "not-found" then Ok (float_of_Z 4)
  else Failed (Errorf ("unknown systemd load state: " +:+ loadState)).

(** One block [if v, err := parse(...); err == nil { ch <- ... } else
    { c.logger.Debug(...) }]. *)
Definition stateBlock (unit : UnitStatus) (parse : string → result)
    (raw : string) (d : systemdDesc) (msg : string)
    (s : Sink systemdDesc) : Sink systemdDesc :=
  match parse raw with
  | Ok v => send (mkMetric d v [Name unit]) s
  | Failed _ => Debug msg (Name unit) raw s
  end.

(** The type assertion [.(string)] on the property value has no [ok]
    result here: it panics on a value that is not a string. *)
Definition collectServiceMetrics (conn : string → option Variant)
    (unit : UnitStatus) (s : Sink systemdDesc)
    : outcome (Sink systemdDesc * option error) :=
  match
    match conn (Name unit) with
    | Some (VString v) => Some v
    | Some VOther => None
    | None => Some "unknown"
    end
  with
  | None => Panicked s
  | Some serviceType =>
      let s := send (mkMetric serviceInfo (float_of_Z 1) [Name unit; serviceType]) s in
      let s := stateBlock unit parseSystemdState (ActiveState unit)
                 serviceState "failed to parse systemd state" s in
      let s := stateBlock unit parseSystemdSubState (SubState unit)
                 serviceSubState "failed to parse systemd sub-state" s in
      let s := stateBlock unit parseSystemdLoadState (LoadState unit)
                 serviceLoadState "failed to parse systemd load state" s in
      Returned (s, None)
  end.

End Part000.

(** ** Definitions the statements below use

    The notions of the specification, and the inputs of the examples. *)

(** The normal form of an id in the words of the specification: the
    lowercase form of the id with the ["0x"] prefix stripped. *)
Definition spec_normalize (id : string) : string := ToLower (TrimPrefix id "0x").

(** The normalizer in the words of the specification: after trimming, the
    numeric strings ["0"] to ["4"], and without regard to case the tokens
    d0, d1, d2, d3hot and d3cold; nothing else. *)
Definition spec_parsePowerState (s : string) : option Z :=
  let t := TrimSpace s in
  if String.eqb t "0" then Some 0
  else if String.eqb t "1" then Some 1
  else if String.eqb t "2" then Some 2
  else if String.eqb t "3" then Some 3
  else if String.eqb t "4" then Some 4
  else if String.eqb (ToLower t) "d0" then Some 0
  else if String.eqb (ToLower t) "d1" then Some 1
  else if String.eqb (ToLower t) "d2" then Some 2
  else if String.eqb (ToLower t) "d3hot" then Some 3
  else if String.eqb (ToLower t) "d3cold" then Some 4
  else None.

(** The state strings both variants recognize, in the order of their
    values 1 to 6. *)
Definition systemdStates : list string :=
  ["active"; "reloading"; "inactive"; "failed"; "activating"; "deactivating"].

(** The position of [s] in [l], counted from 1; 0 when [s] is not in [l]. *)
Fixpoint position (s : string) (l : list string) : Z :=
  match l with
  | [] => 0
  | x :: l' =>
      if String.eqb s x then 1
      else match position s l' with 0 => 0 | n => n + 1 end
  end.

(** The observations of descriptor [d] among those a call has sent. *)
Definition sentWith {D} `{EqDecision D} (d : D) (l : list (Metric D)) : list (Metric D) :=
  List.filter (λ m, bool_decide (desc m = d)) l.

Definition sinkOf (o : outcome (Sink systemdDesc * option error)) : Sink systemdDesc :=
  match o with
  | Returned (s, _) => s
  | Panicked s => s
  end.

(** The six numeric attributes in the order of [collectDeviceMetrics]:
    descriptor, attribute file, normalizer. *)
Definition numericAttrs : list (pcieDesc * string * (string → result)) :=
  [(currentSpeed, "current_link_speed", parseSpeed);
   (currentWidth, "current_link_width", parseWidth);
   (maxSpeed, "max_link_speed", parseSpeed);
   (maxWidth, "max_link_width", parseWidth);
   (powerState, "power_state", parsePowerState);
   (d3coldAllowed, "d3cold_allowed", ParseFloat)].

(** What one block of [collectDeviceMetrics] sends for the raw text [raw]
    of its attribute: nothing for the sentinel, the normalized value when
    the normalizer succeeds, nothing when it fails. *)
Definition blockSends (d : pcieDesc) (deviceID raw : string)
    (parse : string → result) : list (Metric pcieDesc) :=
  if String.eqb raw "unknown" then []
  else match parse raw with
       | Ok v => [mkMetric d v [deviceID]]
       | Failed _ => []
       end.

(** A table of vendors with the one entry the examples use. *)
Definition intelTables : Tables :=
  loadLines ["8086  Intel Corporation"] emptyTables.

(** The tables of a class with one subclass. *)
Definition bridgeTables : Tables :=
  loadLines ["C 06  Bridge"; tab +:+ "04  PCI bridge"] emptyTables.

(** An inventory with one device, whose attribute files all exist. *)
Definition sampleDevice : string := "/sys/bus/pci/devices/0000:00:1f.2".

Definition sampleInventory : gmap string string :=
  list_to_map
    [(Join sampleDevice "vendor", "0x8086" +:+ String "010" "");
     (Join sampleDevice "device", "0x1234" +:+ String "010" "");
     (Join sampleDevice "subsystem_vendor", "0x8086" +:+ String "010" "");
     (Join sampleDevice "subsystem_device", "0x7270" +:+ String "010" "");
     (Join sampleDevice "class", "0x060400" +:+ String "010" "");
     (Join sampleDevice "revision", "0x02" +:+ String "010" "");
     (Join sampleDevice "current_link_speed", "2.5 GT/s PCIe" +:+ String "010" "");
     (Join sampleDevice "current_link_width", "4" +:+ String "010" "");
     (Join sampleDevice "max_link_speed", "8.0 GT/s PCIe" +:+ String "010" "");
     (Join sampleDevice "max_link_width", "16" +:+ String "010" "");
     (Join sampleDevice "power_state", "D0" +:+ String "010" "");
     (Join sampleDevice "d3cold_allowed", "1" +:+ String "010" "")].

Definition emptySink : Sink pcieDesc := mkSink [] [].


(** ** The rest of the collectors

    The label names of the descriptors of [NewPCIeCollector]: the client
    library panics in [MustNewConstMetric] when the number of label values
    is not the number of label names. *)





(** [strings.Fields]: the maximal runs of bytes between white-space runes.
    [skip] counts the bytes of a white-space rune still to pass, [cur] is
    the field being read. *)
Definition flushField (cur : string) : list string :=
  if String.eqb cur "" then [] else [cur].

Fixpoint fieldsLoop (skip : nat) (cur : string) (s : string) : list string :=
  match s with
  | EmptyString => flushField cur
  | String c s' =>
      match skip with
      | S k => fieldsLoop k cur s'
      | O =>
          match space_len s with
          | O => fieldsLoop 0 (cur +:+ String c "") s'
          | S k => flushField cur ++ fieldsLoop k "" s'
          end
      end
  end.

Definition Fields (s : string) : list string := fieldsLoop 0 "" s.

(** [src/unnamed/part_001]: the kernel module collector. *)
Module KernelModules.

Inductive moduleDesc : Type := moduleState | moduleRefcount | moduleSize.

Global Instance moduleDesc_eq_dec : EqDecision moduleDesc.
Proof. solve_decision. Defined.

Definition labelNames (d : moduleDesc) : list string := ["module"].

(** [logger.Warn], recorded like [logger.Debug]. *)
Definition Warn (msg subject val : string) (s : Sink moduleDesc) : Sink moduleDesc :=
  mkSink (ch s) (logged s ++ [mkLogEntry msg subject val]).

(** The [switch] on the state of a module; [None] is the default case. *)
Definition stateValue (state : string) : option float64 :=
  if String.eqb state "Live" then Some (float_of_Z 1)
  else if String.eqb state "Loading" then Some (float_of_Z 0)
  else if String.eqb state "Unloading" then Some (float_of_Z (-1))
  else None.

(** One iteration of the loop of [Update], on the line [scanner.Text()]. *)
Definition scanModule (line : string) (s : Sink moduleDesc) : Sink moduleDesc :=
  let parts := Fields line in
  if (length parts <? 5)%nat then s
  else
    let module := nth 0 parts "" in
    let sizeStr := nth 1 parts "" in
    let refcountStr := nth 2 parts "" in
    let state := nth 4 parts "" in
    match ParseFloat sizeStr with
    | Failed _ => Warn "failed to parse kernel module size" module sizeStr s
    | Ok size =>
        match ParseFloat refcountStr with
        | Failed _ =>
            Warn "failed to parse kernel module refcount" module refcountStr s
        | Ok refcount =>
            match stateValue state with
            | None => Warn "unknown kernel module state" module state s
            | Some v =>
                let s := send (mkMetric moduleState v [module]) s in
                let s := send (mkMetric moduleSize size [module]) s in
                send (mkMetric moduleRefcount refcount [module]) s
            end
        end
    end.

(** [Update]: [procModules] is [None] when [/proc/modules] does not open,
    and otherwise the lines the scanner yields with the error
    [scanner.Err()] it ends with. *)
Definition Update (procModules : option (list string * option error))
    (s : Sink moduleDesc) : Sink moduleDesc * option error :=
  match procModules with
  | None => (s, Some (Errorf "failed to read /proc/modules"))
  | Some (lines, scanErr) => (fold_left (λ s line, scanModule line s) lines s, scanErr)
  end.

End KernelModules.

(** ** Definitions the further statements use *)

(** The lines a run skips at once: the empty line and the comments. *)
Definition skipped (line : string) : bool :=
  String.eqb line "" || HasPrefix line "#".

(** What the loop keeps true of the class tables: the base class of the
    context is empty or a key of [pciClasses], and every key of
    [pciSubclasses] starts with a non-empty key of [pciClasses]. *)
Definition classTablesInv (l : Locals) (t : Tables) : Prop :=
  (currentBaseClass l = "" ∨ is_Some (pciClasses t !! currentBaseClass l))
  ∧ ∀ k, is_Some (pciSubclasses t !! k) →
         ∃ c, c ≠ "" ∧ is_Some (pciClasses t !! c) ∧ HasPrefix k c = true.

(** The observations [collectDeviceMetrics] sends for one device. *)
Definition deviceObservations (fs : gmap string string) (t : Tables)
    (devicePath deviceID : string) : list (Metric pcieDesc) :=
  mkMetric info (float_of_Z 1) (infoLabels fs t devicePath deviceID)
  :: concat (map (λ '(d, file, parse),
               blockSends d deviceID (readFileContent fs (Join devicePath file)) parse)
             numericAttrs).

(** The subject and value of what one block of [collectDeviceMetrics] logs
    for the raw text [raw]: an entry when the text is not the sentinel and
    the normalizer fails on it. *)
Definition blockLogs (deviceID raw : string) (parse : string → result)
    : list (string * string) :=
  if String.eqb raw "unknown" then []
  else match parse raw with
       | Ok _ => []
       | Failed _ => [(deviceID, raw)]
       end.

(** The first label value of an observation. *)
Definition firstLabel {D} (m : Metric D) : string := nth 0 (labelValues m) "".

(** The sub-state and load-state strings both variants recognize, in the
    order of their values. *)
Definition systemdSubStates : list string :=
  ["running"; "exited"; "failed"; "dead"; "start"; "stop"; "reload";
   "auto-restart"].

Definition systemdLoadStates : list string :=
  ["loaded"; "error"; "masked"; "not-found"].





(** A path element: not empty and without a separator. *)
Definition isElement (name : string) : bool :=
  negb (String.eqb name "")
  && negb (existsb (Ascii.eqb "/") (list_ascii_of_string name)).

(** What a state block of the systemd collector of [part_000] is to send
    and to log for the raw text [raw], in terms of the position of the
    lowered text among the names it recognizes: the observation with that
    position as its value, or, when the text is none of the names, a log
    entry. *)
Definition stateSends (d : systemdDesc) (name : string) (names : list string)
    (raw : string) : list (Metric systemdDesc) :=
  if position (ToLower raw) names =? 0 then []
  else [mkMetric d (float_of_Z (position (ToLower raw) names)) [name]].

Definition stateLogs (msg name : string) (names : list string) (raw : string)
    : list LogEntry :=
  if position (ToLower raw) names =? 0 then [mkLogEntry msg name raw] else [].

(** The value of a module state as the help text of the descriptor gives
    it: 1 = Live, 0 = Loading, -1 = Unloading, the names as written. *)
Definition spec_moduleState (state : string) : option Z :=
  if String.eqb state "Live" then Some 1
  else if String.eqb state "Loading" then Some 0
  else if String.eqb state "Unloading" then Some (-1)
  else None.
(** * Properties

    ** Sanity checks of the library models *)

Example TrimSpace_ex : TrimSpace (" " +:+ tab +:+ "unknown" +:+ String "010" "") = "unknown".
Proof. reflexivity. Qed.
Example TrimSpace_nbsp : TrimSpace (String "194" (String "160" "a b ")) = "a b".
Proof. reflexivity. Qed.
Example SplitN2_ex : SplitN2 "8086  Intel  Corp" "  " = ["8086"; "Intel  Corp"].
Proof. reflexivity. Qed.
Example ToLower_ex : ToLower "0X80aB" = "0x80ab".
Proof. reflexivity. Qed.
Example TrimSuffix_ex : TrimSuffix "2.5 GT/s PCIe" " GT/s PCIe" = "2.5".
Proof. reflexivity. Qed.

Example grammar_round_trip :
  let t := loadLines ["C 06  Bridge"; tab +:+ "04  PCI bridge";
                      tab +:+ tab +:+ "foo  bar"] emptyTables in
  pciSubclasses t !! "0604" = Some "PCI bridge" ∧ pciClasses t !! "06" = Some "Bridge".
Proof. vm_compute. split; reflexivity. Qed.

Example ParseFloat_examples :
  ParseFloat "2.5" = Ok (FNum (5 # 2)) ∧ ParseFloat "16.0" = Ok (float_of_Z 16)
  ∧ ParseFloat "unknown" = Failed ErrSyntax ∧ ParseFloat "" = Failed ErrSyntax
  ∧ ParseFloat "-1e3" = Ok (float_of_Z (-1000))
  ∧ ParseFloat "1_000" = Ok (float_of_Z 1000) ∧ ParseFloat "_1" = Failed ErrSyntax
  ∧ ParseFloat "0x1p-2" = Ok (FNum (1 # 4)) ∧ ParseFloat "0x10" = Failed ErrSyntax
  ∧ ParseFloat "+Inf" = Ok (FInf false) ∧ ParseFloat "infinit" = Failed ErrSyntax
  ∧ ParseFloat "nan" = Ok FNaN ∧ ParseFloat "1e400" = Failed ErrRange
  ∧ ParseFloat "1e-400" = Ok (FNum (1 # (10 ^ 400)))
  ∧ ParseFloat ".5" = Ok (FNum (1 # 2)) ∧ ParseFloat "." = Failed ErrSyntax
  ∧ ParseFloat "1e" = Failed ErrSyntax ∧ ParseFloat "1.e+2" = Ok (float_of_Z 100)
  ∧ ParseFloat "d0" = Failed ErrSyntax ∧ ParseFloat " 1" = Failed ErrSyntax.
Proof. vm_compute. repeat split. Qed.

Example normalizer_examples :
  parseSpeed "2.5 GT/s PCIe" = Ok (FNum (5 # 2))
  ∧ parseSpeed "16.0 GT/s" = Ok (float_of_Z 16)
  ∧ succeeds (parseSpeed "unknown") = false
  ∧ parseWidth "x16" = Ok (float_of_Z 16) ∧ parseWidth "x1" = Ok (float_of_Z 1)
  ∧ succeeds (parseWidth "unknown") = false
  ∧ parsePowerState "D3cold" = Ok (float_of_Z 4)
  ∧ parsePowerState "2" = Ok (float_of_Z 2)
  ∧ parsePowerState "garbage" = Failed (Errorf "unknown power state: garbage").
Proof. vm_compute. repeat split. Qed.

Example Base_examples :
  Base "/sys/bus/pci/devices/0000:00:1f.2" = "0000:00:1f.2"
  ∧ Base "" = "." ∧ Base "///" = "/" ∧ Base "a/b/" = "b" ∧ Base "abc" = "abc".
Proof. vm_compute. repeat split. Qed.

(** ** Properties of the loader *)

Section loader_facts.
Implicit Types (l : Locals) (t : Tables) (line : string) (lines : list string).

Local Ltac scan_cases :=
  unfold scanLine; repeat case_match; simpl in *; try congruence; auto.

(** The locals after a line do not depend on the tables. *)
Lemma scanLine_locals l t t' line :
  (scanLine l t line).1 = (scanLine l t' line).1.
Proof. scan_cases. Qed.

(** The test of the device branch is the test of the subclass branch,
    which comes first and ends with [continue]: no line reaches the
    device branch, and [pciDevices] is never written. *)
Lemma scanLine_pciDevices l t line :
  pciDevices (scanLine l t line).2 = pciDevices t.
Proof. scan_cases. Qed.

(** [currentDevice] is set in the device branch only, so it stays empty. *)
Lemma scanLine_currentDevice l t line :
  currentDevice l = "" → currentDevice (scanLine l t line).1 = "".
Proof. scan_cases. Qed.

Lemma scanLine_pciSubsystems l t line :
  currentDevice l = "" → pciSubsystems (scanLine l t line).2 = pciSubsystems t.
Proof.
  intros Hd. unfold scanLine. rewrite Hd.
  repeat case_match; simpl in *; try congruence; auto.
  rewrite andb_false_r in *. congruence.
Qed.

Lemma scanLines_cons l t line lines :
  scanLines l t (line :: lines)
  = scanLines (scanLine l t line).1 (scanLine l t line).2 lines.
Proof. simpl. destruct (scanLine l t line); reflexivity. Qed.

Lemma scanLines_locals lines : ∀ l t t',
  (scanLines l t lines).1 = (scanLines l t' lines).1.
Proof.
  induction lines as [|line lines IH]; intros l t t'; [reflexivity|].
  rewrite !scanLines_cons, (scanLine_locals l t t'). apply IH.
Qed.

Lemma scanLines_pciDevices lines : ∀ l t,
  pciDevices (scanLines l t lines).2 = pciDevices t.
Proof.
  induction lines as [|line lines IH]; intros l t; [reflexivity|].
  rewrite scanLines_cons, IH. apply scanLine_pciDevices.
Qed.

Lemma scanLines_pciSubsystems lines : ∀ l t,
  currentDevice l = "" →
  pciSubsystems (scanLines l t lines).2 = pciSubsystems t.
Proof.
  induction lines as [|line lines IH]; intros l t Hd; [reflexivity|].
  rewrite scanLines_cons, IH by (by apply scanLine_currentDevice).
  by apply scanLine_pciSubsystems.
Qed.

(** A line with exactly two leading tabs changes nothing, whatever the
    context is. *)
Lemma scanLine_two_tabs l t line :
  HasPrefix line (tab +:+ tab) = true →
  HasPrefix line (tab +:+ tab +:+ tab) = false →
  scanLine l t line = (l, t).
Proof.
  intros H2 H3.
  assert ((line =? "")%string = false ∧ HasPrefix line "#" = false
          ∧ HasPrefix line "C" = false ∧ HasPrefix line tab = true)
    as (He & Hh & HC & H1).
  { destruct line as [|c line]; [discriminate|].
    simpl in H2. apply andb_true_iff in H2 as [Hc _].
    apply Ascii.eqb_eq in Hc as ->. repeat split. }
  unfold scanLine. rewrite He, Hh, HC, H1, H2, H3. reflexivity.
Qed.

(** What a run writes into the three flat tables is an overlay on the
    tables it starts from. *)
Lemma scanLine_pciVendors l t line :
  pciVendors (scanLine l t line).2
  = pciVendors (scanLine l emptyTables line).2 ∪ pciVendors t.
Proof.
  scan_cases; rewrite ?(left_id_L ∅ (∪)); auto.
  by rewrite insert_empty, <-insert_union_singleton_l.
Qed.

Lemma scanLine_pciClasses l t line :
  pciClasses (scanLine l t line).2
  = pciClasses (scanLine l emptyTables line).2 ∪ pciClasses t.
Proof.
  scan_cases; rewrite ?(left_id_L ∅ (∪)); auto.
  by rewrite insert_empty, <-insert_union_singleton_l.
Qed.

Lemma scanLine_pciSubclasses l t line :
  pciSubclasses (scanLine l t line).2
  = pciSubclasses (scanLine l emptyTables line).2 ∪ pciSubclasses t.
Proof.
  scan_cases; rewrite ?(left_id_L ∅ (∪)); auto.
  by rewrite insert_empty, <-insert_union_singleton_l.
Qed.
End loader_facts.

Section overlay.
Variable P : Tables → gmap string string.
Hypothesis P_empty : P emptyTables = ∅.
Hypothesis P_step : ∀ l t line,
  P (scanLine l t line).2 = P (scanLine l emptyTables line).2 ∪ P t.

Lemma scanLines_overlay lines : ∀ l t,
  P (scanLines l t lines).2 = P (scanLines l emptyTables lines).2 ∪ P t.
Proof using P_empty P_step.
  induction lines as [|line lines IH]; intros l t.
  - simpl. by rewrite P_empty, (left_id_L ∅ (∪)).
  - rewrite !scanLines_cons.
    rewrite (scanLine_locals l emptyTables t).
    rewrite (IH _ (scanLine l t line).2), (IH _ (scanLine l emptyTables line).2).
    by rewrite (P_step l t), (assoc_L (∪)).
Qed.

Lemma scanLines_twice lines l t :
  P (scanLines l (scanLines l t lines).2 lines).2 = P (scanLines l t lines).2.
Proof using P_empty P_step.
  rewrite (scanLines_overlay lines l (scanLines l t lines).2).
  rewrite (scanLines_overlay lines l t).
  by rewrite (assoc_L (∪)), (idemp_L (∪)).
Qed.
End overlay.

Lemma Tables_eq (t1 t2 : Tables) :
  pciVendors t1 = pciVendors t2 → pciDevices t1 = pciDevices t2 →
  pciSubsystems t1 = pciSubsystems t2 → pciClasses t1 = pciClasses t2 →
  pciSubclasses t1 = pciSubclasses t2 → t1 = t2.
Proof. destruct t1, t2; simpl; congruence. Qed.

Lemma loadLines_twice (lines : list string) (t : Tables) :
  loadLines lines (loadLines lines t) = loadLines lines t.
Proof.
  unfold loadLines. apply Tables_eq.
  - apply (scanLines_twice pciVendors); [reflexivity|apply scanLine_pciVendors].
  - by rewrite !scanLines_pciDevices.
  - by rewrite !scanLines_pciSubsystems.
  - apply (scanLines_twice pciClasses); [reflexivity|apply scanLine_pciClasses].
  - apply (scanLines_twice pciSubclasses); [reflexivity|apply scanLine_pciSubclasses].
Qed.


(** ** The loader: device and subsystem lines, and running it twice *)

(** C1 (the code departs from the claim). A line with one leading tab after
    a vendor line is not inserted into [pciDevices]: the subclass branch of
    [loadPCIIds] tests for one leading tab first and ends with [continue],
    so the device branch below it is never reached. No run of the loop
    changes [pciDevices], from any state and on any lines; on the file
    made of a vendor line and a device line the vendor is stored and the
    device table stays empty. *)
Theorem device_lines_never_reach_pciDevices :
  (∀ lines l t, pciDevices (scanLines l t lines).2 = pciDevices t)
  ∧ (let t := loadLines ["8086  Intel Corporation"; tab +:+ "1234  Some Device"]
                emptyTables in
     pciVendors t !! "8086" = Some "Intel Corporation"
     ∧ pciDevices t = ∅).
Proof.
  split; [apply scanLines_pciDevices|].
  cbv zeta. split; [vm_compute; reflexivity|].
  unfold loadLines. by rewrite scanLines_pciDevices.
Qed.

(** C2 (the code departs from the claim). A line with exactly two leading
    tabs is skipped in every context, also when [currentVendor] and
    [currentDevice] are set: the programming-interface branch tests for two
    leading tabs before the subsystem branch and ends with [continue]. The
    part of the claim on the subclass context holds, as it holds in every
    context. On the file made of a vendor line, a device line and a
    subsystem line, [pciSubsystems] stays empty. *)
Theorem two_tab_lines_are_skipped_in_every_context :
  (∀ l t line,
     HasPrefix line (tab +:+ tab) = true →
     HasPrefix line (tab +:+ tab +:+ tab) = false →
     scanLine l t line = (l, t))
  ∧ scanLine (mkLocals "8086" "1234" "" "") emptyTables
      (tab +:+ tab +:+ "8086 0001  Some Subsystem")
    = (mkLocals "8086" "1234" "" "", emptyTables)
  ∧ pciSubsystems
      (loadLines ["8086  Intel Corporation"; tab +:+ "1234  Some Device";
                  tab +:+ tab +:+ "8086 0001  Some Subsystem"] emptyTables)
    = ∅.
Proof.
  split; [apply scanLine_two_tabs|]. split.
  - by apply scanLine_two_tabs.
  - unfold loadLines. by rewrite scanLines_pciSubsystems.
Qed.

(** C9. Running the loader a second time on the same file, from the tables
    the first run produced, gives the tables of the first run; the same
    holds of the scanning loop on any sequence of lines. *)
Theorem loadPCIIds_idempotent (open : string → option (list string)) (t : Tables) :
  loadPCIIds open (loadPCIIds open t) = loadPCIIds open t
  ∧ ∀ lines, loadLines lines (loadLines lines t) = loadLines lines t.
Proof.
  split; [|intros lines; apply loadLines_twice].
  unfold loadPCIIds. destruct (openFirst open pciIdsPaths) as [lines|]; [|reflexivity].
  apply (loadLines_twice lines t).
Qed.

(** ** The name resolvers *)

Section string_facts.
Implicit Types (s p : string) (n : nat).

Lemma ToLower_drop_bytes n : ∀ s, ToLower s = s → ToLower (drop_bytes n s) = drop_bytes n s.
Proof.
  induction n as [|n IH]; intros [|c s] H; simpl; auto.
  apply IH. simpl in H. congruence.
Qed.

Lemma ToLower_TrimPrefix s p : ToLower s = s → ToLower (TrimPrefix s p) = TrimPrefix s p.
Proof.
  intros H. unfold TrimPrefix. destruct (HasPrefix s p); [|done].
  by apply ToLower_drop_bytes.
Qed.

Lemma spec_normalize_lowercase s : ToLower s = s → spec_normalize s = TrimPrefix s "0x".
Proof. apply ToLower_TrimPrefix. Qed.

Lemma TrimPrefix_no_prefix s p : HasPrefix s p = false → TrimPrefix s p = s.
Proof. unfold TrimPrefix. by intros ->. Qed.

Lemma cut_SplitN2 s sep before after :
  cut s sep = Some (before, after) → SplitN2 s sep = [before; after].
Proof. unfold SplitN2. by intros ->. Qed.
End string_facts.

(** Class-name resolution as two lookups under the normal form of the id:
    the whole of it among the subclasses, its first two bytes among the
    classes. *)
Lemma getPCIClassName_lookups (t : Tables) (classID : string) :
  let id := spec_normalize classID in
  getPCIClassName t classID
  = default
      (default ("Unknown class (" +:+ id +:+ ")")
         (if (2 <=? String.length id)%nat
          then pciClasses t !! take_bytes 2 id else None))
      (if (4 <=? String.length id)%nat then pciSubclasses t !! id else None).
Proof.
  intros id. unfold getPCIClassName. fold (spec_normalize classID). fold id.
  destruct (4 <=? String.length id)%nat, (2 <=? String.length id)%nat; simpl;
    repeat case_match; reflexivity.
Qed.

(** C3, as the claim states it, fails. The loader stores an id as the file
    writes it: the vendor line [ABCD  Acme] is stored under ["ABCD"], and
    nothing is stored under the normal form ["abcd"]. Subsystem-name
    resolution does not lowercase: on a miss, ["0xABCD"] comes back as
    ["ABCD"], which is not its normal form. *)
Lemma keys_not_normalized_counterexample :
  (let t := loadLines ["ABCD  Acme"] emptyTables in
   pciVendors t !! "ABCD" = Some "Acme"
   ∧ pciVendors t !! spec_normalize "ABCD" = None)
  ∧ getPCISubsystemName emptyTables "0x8086" "0x1234" "0x8086" "0xABCD" = "ABCD"
  ∧ spec_normalize "0xABCD" = "abcd".
Proof. vm_compute. repeat split. Qed.

(** C3, amended. Vendor-name and device-name resolution look up under the
    normal form of each id (lowercase, ["0x"] stripped) and fall back to
    the normal form of the id they resolve; class-name resolution reads its
    id through the normal form only. The loader stores a vendor under the
    id as the line writes it, trimmed of white space and not normalized.
    Subsystem-name resolution, on ids without uppercase letters, looks up
    under the normal forms of all four ids and on a miss returns the normal
    form of the subsystem device id. *)
Theorem keys_as_the_code_uses_them (t : Tables) :
  (∀ id, getPCIVendorName t id
         = default (spec_normalize id) (pciVendors t !! spec_normalize id))
  ∧ (∀ v d, getPCIDeviceName t v d
            = default (spec_normalize d)
                (pciDevices t !! spec_normalize v ≫= (.!! spec_normalize d)))
  ∧ (∀ c c', spec_normalize c = spec_normalize c' →
             getPCIClassName t c = getPCIClassName t c')
  ∧ (∀ l line before after,
       line ≠ "" → HasPrefix line "#" = false → HasPrefix line "C" = false →
       HasPrefix line tab = false →
       cut line "  " = Some (before, after) →
       (scanLine l t line).2
       = set_pciVendors <[TrimSpace before := TrimSpace after]> t)
  ∧ (∀ v d sv sd,
       ToLower v = v → ToLower d = d → ToLower sv = sv → ToLower sd = sd →
       getPCISubsystemName t v d sv sd
       = default (spec_normalize sd)
           (pciSubsystems t !! Sprintf_colon (spec_normalize v) (spec_normalize d)
            ≫= (.!! Sprintf_colon (spec_normalize sv) (spec_normalize sd)))).
Proof.
  split; [|split; [|split; [|split]]].
  - intros id. reflexivity.
  - intros v d. unfold getPCIDeviceName, spec_normalize. cbv zeta.
    destruct (pciDevices t !! ToLower (TrimPrefix v "0x")) as [devices|]; reflexivity.
  - intros c c' Hc. rewrite !getPCIClassName_lookups. cbv zeta. by rewrite Hc.
  - intros l line before after Hne Hh HC Ht Hcut.
    assert (HasPrefix line (tab +:+ tab) = false) as Ht2.
    { destruct line as [|c line]; [done|]. simpl in *.
      by destruct (Ascii.eqb c "009"). }
    unfold scanLine. apply String.eqb_neq in Hne.
    rewrite Hne, Hh, HC, Ht, Ht2, (cut_SplitN2 _ _ _ _ Hcut). reflexivity.
  - intros v d sv sd Hv Hd Hsv Hsd.
    rewrite !spec_normalize_lowercase by done.
    unfold getPCISubsystemName. cbv zeta.
    destruct (pciSubsystems t !! _) as [subsystems|]; reflexivity.
Qed.

(** The amended C3 on lowercase ids that miss, and on the vendor line
    [ABCD  Acme]. *)
Lemma keys_as_the_code_uses_them_witness :
  getPCISubsystemName intelTables "0x8086" "0x1234" "0x8086" "0xabcd" = "abcd"
  ∧ (scanLine initLocals emptyTables "ABCD  Acme").2
    = set_pciVendors <["ABCD" := "Acme"]> emptyTables.
Proof.
  split.
  - apply (proj2 (proj2 (proj2 (proj2 (keys_as_the_code_uses_them intelTables))))
             "0x8086" "0x1234" "0x8086" "0xabcd"); reflexivity.
  - apply (proj1 (proj2 (proj2 (proj2 (keys_as_the_code_uses_them emptyTables))))
             initLocals "ABCD  Acme" "ABCD" "Acme"); [discriminate | reflexivity..].
Defined.

(** C4, as the claim states it, fails: with 8086 in the vendor table,
    ["0x8086"] and ["8086"] resolve to its name and ["0X8086"] resolves to
    ["0x8086"]. *)
Lemma vendor_spellings_counterexample :
  getPCIVendorName intelTables "0x8086" = "Intel Corporation"
  ∧ getPCIVendorName intelTables "8086" = "Intel Corporation"
  ∧ getPCIVendorName intelTables "0X8086" = "0x8086"
  ∧ getPCIVendorName intelTables "0X8086" ≠ getPCIVendorName intelTables "8086".
Proof. vm_compute. repeat split. discriminate. Qed.

(** C4, amended. For a vendor id [v] that does not itself start with
    ["0x"], the spellings ["0x" + v] and [v] resolve to the same name. The
    prefix is stripped before the id is lowered, so ["0X" + v] keeps its
    prefix: it is looked up under ["0x" + lowercase v] and resolves to that
    key on a miss. *)
Theorem vendor_spellings (t : Tables) (v : string) :
  HasPrefix v "0x" = false →
  getPCIVendorName t ("0x" +:+ v) = getPCIVendorName t v
  ∧ getPCIVendorName t ("0X" +:+ v)
    = default ("0x" +:+ ToLower v) (pciVendors t !! ("0x" +:+ ToLower v)).
Proof.
  intros Hv. split.
  - unfold getPCIVendorName. rewrite (TrimPrefix_no_prefix v) by done.
    reflexivity.
  - unfold getPCIVendorName.
    change (ToLower (TrimPrefix ("0X" +:+ v) "0x")) with ("0x" +:+ ToLower v).
    reflexivity.
Qed.

(** The amended C4 on the vendor id 8086. *)
Lemma vendor_spellings_witness :
  getPCIVendorName intelTables "0x8086" = getPCIVendorName intelTables "8086"
  ∧ getPCIVendorName intelTables "0X8086"
    = default "0x8086" (pciVendors intelTables !! "0x8086").
Proof. apply (vendor_spellings intelTables "8086"). reflexivity. Defined.

(** C6 (the code departs from the claim). Class-name resolution looks the
    whole normalized id up in [pciSubclasses], not its first four digits:
    the test [len(classID) >= 4] is there, the slice [classID[:4]] is not,
    while the base class does use [classID[:2]]. A class id of six digits,
    as the inventory gives it, misses the subclass whose key its first four
    digits are, and resolves to the base class. *)
Theorem class_lookup_uses_whole_id :
  (∀ t classID,
     let id := spec_normalize classID in
     getPCIClassName t classID
     = default
         (default ("Unknown class (" +:+ id +:+ ")")
            (if (2 <=? String.length id)%nat
             then pciClasses t !! take_bytes 2 id else None))
         (if (4 <=? String.length id)%nat then pciSubclasses t !! id else None))
  ∧ pciSubclasses bridgeTables !! take_bytes 4 (spec_normalize "0x060400")
    = Some "PCI bridge"
  ∧ getPCIClassName bridgeTables "0x060400" = "Bridge"
  ∧ getPCIClassName bridgeTables "0x0604" = "PCI bridge"
  ∧ getPCIClassName bridgeTables "0xff0000" = "Unknown class (ff0000)".
Proof.
  split; [|vm_compute; repeat split].
  intros t classID. apply getPCIClassName_lookups.
Qed.

(** ** The power-state normalizer *)

Section power_state_facts.

(** Lowering a byte gives a digit only when the byte is that digit. *)
Lemma lower_byte_digit (c : ascii) :
  is_digit (lower_byte c) = true → lower_byte c = c.
Proof.
  destruct c as [[] [] [] [] [] [] [] []]; vm_compute; congruence.
Qed.

Lemma ToLower_digit (t : string) (d : ascii) :
  is_digit d = true → ToLower t = String d "" → t = String d "".
Proof.
  intros Hd H. destruct t as [|c [|c' t]]; simpl in H; try discriminate.
  injection H as H. rewrite <-H in Hd. apply lower_byte_digit in Hd.
  congruence.
Qed.

Lemma lower_byte_d (c : ascii) :
  lower_byte c = "d"%char → c = "d"%char ∨ c = "D"%char.
Proof.
  destruct c as [[] [] [] [] [] [] [] []]; vm_compute; intros H;
    try discriminate H; auto.
Qed.

(** No float literal starts with the letter d. *)
Lemma ParseFloat_d (t r : string) :
  ToLower t = String "d" r → ParseFloat t = Failed ErrSyntax.
Proof.
  destruct t as [|c t]; [discriminate|]. simpl. intros H.
  injection H as Hc _. apply lower_byte_d in Hc as [-> | ->];
    destruct t as [|c1 [|c2 t]]; reflexivity.
Qed.

Lemma eqb_ToLower_digit (t : string) (d : ascii) :
  is_digit d = true → (t =? String d "")%string = false →
  (ToLower t =? String d "")%string = false.
Proof.
  intros Hd Ht. apply String.eqb_neq. intros H.
  apply ToLower_digit in H; [|done]. apply String.eqb_neq in Ht. done.
Qed.

End power_state_facts.

(** C5, as the claim states it, fails: ["5"] is none of the strings the
    claim lists, and the normalizer succeeds on it with the value 5, as it
    does with 5/2 on ["2.5"] and with 1000 on ["1e3"]. *)
Lemma parsePowerState_counterexample :
  spec_parsePowerState "5" = None
  ∧ parsePowerState "5" = Ok (float_of_Z 5)
  ∧ parsePowerState "2.5" = Ok (FNum (5 # 2))
  ∧ parsePowerState " 1e3 " = Ok (float_of_Z 1000).
Proof. vm_compute. repeat split. Qed.

(** C5, amended. On the strings the claim lists the normalizer succeeds
    with the value the claim gives. On every other input it succeeds exactly
    when the trimmed text is a float literal for [strconv.ParseFloat], with
    the value of the literal, and fails with the error "unknown power
    state" otherwise. *)
Theorem parsePowerState_cases (s : string) :
  match spec_parsePowerState s with
  | Some n => parsePowerState s = Ok (float_of_Z n)
  | None =>
      parsePowerState s
      = match ParseFloat (TrimSpace s) with
        | Ok v => Ok v
        | Failed _ => Failed (Errorf ("unknown power state: " +:+ TrimSpace s))
        end
  end.
Proof.
  unfold spec_parsePowerState, parsePowerState. cbv zeta.
  generalize (TrimSpace s) as t. intros t.
  repeat lazymatch goal with
    | |- context [(t =? ?lit)%string] =>
        destruct (t =? lit)%string eqn:?;
        [ match goal with H : (t =? _)%string = true |- _ =>
            apply String.eqb_eq in H; subst t; reflexivity end | ]
    end.
  repeat lazymatch goal with
    | |- context [(ToLower t =? ?lit)%string] =>
        destruct (ToLower t =? lit)%string eqn:?;
        [ match goal with H : (ToLower t =? _)%string = true |- _ =>
            apply String.eqb_eq in H;
            rewrite (ParseFloat_d t _ H); unfold powerStateSwitch; rewrite H;
            reflexivity end | ]
    end.
  destruct (ParseFloat t); [reflexivity|].
  unfold powerStateSwitch.
  rewrite !eqb_ToLower_digit by (done || reflexivity).
  repeat match goal with H : (_ =? _)%string = false |- _ => rewrite H; clear H end.
  reflexivity.
Qed.

(** ** Observations selected by descriptor *)

Section sink_facts.
Context {D : Type} `{EqDecision D}.

Lemma sentWith_app (d : D) (l1 l2 : list (Metric D)) :
  sentWith d (l1 ++ l2) = sentWith d l1 ++ sentWith d l2.
Proof. unfold sentWith. apply List.filter_app. Qed.

(** What a block sends carries the descriptor of the block. *)
Lemma sentWith_result (d d' : D) (r : result) (labels : list string) :
  sentWith d match r with Ok v => [mkMetric d' v labels] | Failed _ => [] end
  = if decide (d' = d)
    then match r with Ok v => [mkMetric d' v labels] | Failed _ => [] end
    else [].
Proof.
  destruct r; simpl; [|by destruct (decide _)].
  unfold bool_decide. by destruct (decide_rel _ _ _), (decide _).
Qed.
End sink_facts.

(** ** The two variants of the systemd state parser *)

Section systemd_facts.
Implicit Types (state : string) (s : Sink systemdDesc) (unit : UnitStatus).

Local Ltac by_states w :=
  repeat lazymatch goal with
    | |- context [(w =? ?lit)%string] =>
        destruct (w =? lit)%string eqn:?; simpl
    end.

Lemma position_systemdStates_range (w : string) :
  0 <= position w systemdStates <= 6.
Proof. unfold systemdStates. simpl. by_states w; lia. Qed.

Lemma SystemdServices_parseSystemdState_position state :
  SystemdServices.parseSystemdState state
  = float_of_Z (position (ToLower state) systemdStates).
Proof.
  unfold SystemdServices.parseSystemdState, systemdStates. cbv zeta.
  generalize (ToLower state) as w. intros w. simpl. by_states w; reflexivity.
Qed.

Lemma Part000_parseSystemdState_position state :
  Part000.parseSystemdState state
  = (if position (ToLower state) systemdStates =? 0
     then Failed (Errorf ("unknown systemd state: " +:+ state))
     else Ok (float_of_Z (position (ToLower state) systemdStates))).
Proof.
  unfold Part000.parseSystemdState, systemdStates. cbv zeta.
  generalize (ToLower state) as w. intros w. simpl. by_states w; reflexivity.
Qed.

Lemma ch_stateBlock unit parse raw d msg s :
  ch (Part000.stateBlock unit parse raw d msg s)
  = ch s ++ match parse raw with
            | Ok v => [mkMetric d v [Name unit]]
            | Failed _ => []
            end.
Proof.
  unfold Part000.stateBlock. destruct (parse raw); simpl; [done|].
  by rewrite app_nil_r.
Qed.
End systemd_facts.

(** C8. With [n] the position of the lowered state string among active,
    reloading, inactive, failed, activating, deactivating (0 when it is
    none of them): the variant of [systemdservices_linux.go] returns [n],
    so 0 on an unrecognized state, and always sends the state observation;
    the variant of [part_000] returns [n] when [n] is 1 to 6 and an error
    when [n] is 0, and then sends no state observation (nor does it when
    it panics on a service type that is not a string). *)
Theorem parseSystemdState_variants (state : string) :
  let n := position (ToLower state) systemdStates in
  0 <= n <= 6
  ∧ SystemdServices.parseSystemdState state = float_of_Z n
  ∧ Part000.parseSystemdState state
    = (if n =? 0 then Failed (Errorf ("unknown systemd state: " +:+ state))
       else Ok (float_of_Z n))
  ∧ ∀ conn name loadState subState s,
      let unit := mkUnitStatus name loadState state subState in
      let observation := mkMetric serviceState (float_of_Z n) [name] in
      sentWith serviceState
        (ch (sinkOf (SystemdServices.collectServiceMetrics conn unit s)))
      = sentWith serviceState (ch s) ++ [observation]
      ∧ sentWith serviceState
          (ch (sinkOf (Part000.collectServiceMetrics conn unit s)))
        = sentWith serviceState (ch s)
          ++ (match conn name with
              | Some VOther => []
              | _ => if n =? 0 then [] else [observation]
              end).
Proof.
  cbv zeta.
  split; [apply position_systemdStates_range|].
  split; [apply SystemdServices_parseSystemdState_position|].
  split; [apply Part000_parseSystemdState_position|].
  intros conn name loadState subState s. split.
  - unfold SystemdServices.collectServiceMetrics. cbn [sinkOf Name ActiveState].
    unfold send. cbn [ch]. rewrite !sentWith_app.
    rewrite SystemdServices_parseSystemdState_position.
    generalize (position (ToLower state) systemdStates) as n. intros n.
    cbn. by rewrite !app_nil_r.
  - unfold Part000.collectServiceMetrics. cbn [Name ActiveState SubState LoadState].
    assert (∀ serviceType,
      sentWith serviceState
        (ch (Part000.stateBlock (mkUnitStatus name loadState state subState)
               Part000.parseSystemdLoadState loadState serviceLoadState
               "failed to parse systemd load state"
            (Part000.stateBlock (mkUnitStatus name loadState state subState)
               Part000.parseSystemdSubState subState serviceSubState
               "failed to parse systemd sub-state"
            (Part000.stateBlock (mkUnitStatus name loadState state subState)
               Part000.parseSystemdState state serviceState
               "failed to parse systemd state"
            (send (mkMetric serviceInfo (float_of_Z 1) [name; serviceType]) s)))))
      = sentWith serviceState (ch s)
        ++ (if position (ToLower state) systemdStates =? 0 then []
            else [mkMetric serviceState
                    (float_of_Z (position (ToLower state) systemdStates)) [name]]))
      as Hsent.
    { intros serviceType. rewrite !ch_stateBlock. unfold send. cbn [ch Name].
      rewrite !sentWith_app, !sentWith_result.
      rewrite Part000_parseSystemdState_position.
      generalize (position (ToLower state) systemdStates) as n. intros n.
      repeat (destruct (decide _); try done).
      change (sentWith serviceState [_]) with (@nil (Metric systemdDesc)).
      rewrite !app_nil_r. by destruct (n =? 0). }
    destruct (conn name) as [[v|]|]; cbn [sinkOf].
    + apply Hsent.
    + by rewrite app_nil_r.
    + apply Hsent.
Qed.

(** ** The device collector *)

Section collector_facts.
Implicit Types (fs : gmap string string) (t : Tables) (s : Sink pcieDesc).

Lemma ch_numericBlock fs devicePath deviceID file parse d msg s :
  ch (numericBlock fs devicePath deviceID file parse d msg s)
  = ch s ++ blockSends d deviceID (readFileContent fs (Join devicePath file)) parse.
Proof.
  unfold numericBlock, blockSends.
  destruct (String.eqb _ "unknown"); simpl; [by rewrite app_nil_r|].
  destruct (parse _); simpl; [done|by rewrite app_nil_r].
Qed.

Lemma sentWith_blockSends d d' deviceID raw parse :
  sentWith d (blockSends d' deviceID raw parse)
  = if decide (d' = d) then blockSends d' deviceID raw parse else [].
Proof.
  unfold blockSends. destruct (String.eqb raw "unknown").
  - by destruct (decide _).
  - apply sentWith_result.
Qed.

(** The observations of a call, in the order they are sent. *)
Lemma ch_collectDeviceMetrics fs t devicePath deviceID s :
  ch (collectDeviceMetrics fs t devicePath deviceID s).1
  = ch s
    ++ mkMetric info (float_of_Z 1) (infoLabels fs t devicePath deviceID)
       :: concat (map (λ '(d, file, parse),
                    blockSends d deviceID
                      (readFileContent fs (Join devicePath file)) parse)
                  numericAttrs).
Proof.
  unfold collectDeviceMetrics. cbn [fst]. rewrite !ch_numericBlock.
  unfold send. cbn [ch numericAttrs map concat].
  rewrite app_nil_r, <-!app_assoc. reflexivity.
Qed.

(** Per descriptor: the observation of a numeric attribute is sent when
    its raw text is not the sentinel and its normalizer succeeds. *)
Lemma sentWith_collectDeviceMetrics fs t devicePath deviceID s :
  Forall (λ '(d, file, parse),
    sentWith d (ch (collectDeviceMetrics fs t devicePath deviceID s).1)
    = sentWith d (ch s)
      ++ blockSends d deviceID (readFileContent fs (Join devicePath file)) parse)
    numericAttrs.
Proof.
  rewrite ch_collectDeviceMetrics. cbn [numericAttrs map concat].
  repeat (apply List.Forall_cons; [|]); try apply List.Forall_nil.
  all: change (?x :: ?l) with ([x] ++ l) at 1.
  all: rewrite !sentWith_app, !sentWith_blockSends.
  all: change (sentWith _ [mkMetric info _ _]) with (@nil (Metric pcieDesc)).
  all: repeat (destruct (decide _); try done).
  all: by rewrite ?app_nil_r; cbn [app].
Qed.

(** The collector reads the file system through [readFileContent] only. *)
Lemma collectDeviceMetrics_ext fs fs' t :
  (∀ p, readFileContent fs p = readFileContent fs' p) →
  ∀ devicePath deviceID s,
    collectDeviceMetrics fs t devicePath deviceID s
    = collectDeviceMetrics fs' t devicePath deviceID s.
Proof.
  intros H devicePath deviceID s.
  unfold collectDeviceMetrics, numericBlock, infoLabels.
  by rewrite !H.
Qed.

Lemma updateLoop_ext fs fs' t :
  (∀ p, readFileContent fs p = readFileContent fs' p) →
  ∀ devices s, updateLoop fs t devices s = updateLoop fs' t devices s.
Proof.
  intros H devices. induction devices as [|devicePath devices IH]; intros s;
    [reflexivity|].
  cbn [updateLoop]. rewrite (collectDeviceMetrics_ext fs fs' t H).
  destruct (collectDeviceMetrics fs' t devicePath (Base devicePath) s) as [s' [e|]];
    apply IH.
Qed.

Lemma readFileContent_insert fs path content :
  readFileContent (<[path := content]> fs) path = TrimSpace content.
Proof. unfold readFileContent. by rewrite lookup_insert_eq. Qed.

Lemma readFileContent_delete fs path :
  readFileContent (delete path fs) path = "unknown".
Proof. unfold readFileContent. by rewrite lookup_delete_eq. Qed.

Lemma readFileContent_unknown_text fs path content :
  TrimSpace content = "unknown" →
  ∀ p, readFileContent (<[path := content]> fs) p
       = readFileContent (delete path fs) p.
Proof.
  intros Hc p. destruct (decide (p = path)) as [->|Hne].
  - by rewrite readFileContent_insert, readFileContent_delete.
  - unfold readFileContent.
    by rewrite lookup_insert_ne, lookup_delete_ne.
Qed.
End collector_facts.

(** What a call sends, with the labels of the info observation as
    [infoLabels] builds them. *)
Lemma collectDeviceMetrics_sends
    (fs : gmap string string) (t : Tables) (devicePath deviceID : string)
    (s : Sink pcieDesc) :
  let r := collectDeviceMetrics fs t devicePath deviceID s in
  r.2 = None
  ∧ ch r.1
    = ch s
      ++ mkMetric info (float_of_Z 1) (infoLabels fs t devicePath deviceID)
         :: concat (map (λ '(d, file, parse),
                      blockSends d deviceID
                        (readFileContent fs (Join devicePath file)) parse)
                    numericAttrs)
  ∧ sentWith info (ch r.1)
    = sentWith info (ch s)
      ++ [mkMetric info (float_of_Z 1) (infoLabels fs t devicePath deviceID)]
  ∧ Forall (λ '(d, file, parse),
      sentWith d (ch r.1)
      = sentWith d (ch s)
        ++ (let raw := readFileContent fs (Join devicePath file) in
            if String.eqb raw "unknown" then []
            else match parse raw with
                 | Ok v => [mkMetric d v [deviceID]]
                 | Failed _ => []
                 end))
      numericAttrs.
Proof.
  cbv zeta. split; [reflexivity|]. split; [apply ch_collectDeviceMetrics|].
  split.
  - rewrite ch_collectDeviceMetrics. cbn [numericAttrs map concat].
    change (?x :: ?l) with ([x] ++ l) at 1.
    rewrite !sentWith_app, !sentWith_blockSends. cbn. by rewrite app_nil_r.
  - exact (sentWith_collectDeviceMetrics fs t devicePath deviceID s).
Qed.

(** C7. A call of [collectDeviceMetrics] returns no error and sends, after
    what the sink already holds: the info observation, value 1, whatever
    the numeric attributes are, with these twelve label values in the order
    of the descriptor: the slot; the vendor id as read and the vendor name
    resolved from it; the device id and the device name resolved from the
    vendor and device ids; the subsystem vendor id and its vendor name; the
    subsystem device id and the subsystem name resolved from all four ids;
    the class id and the class name; the revision. Then, for each of the
    six numeric attributes in turn, its observation when the raw text is
    not ["unknown"] and the normalizer succeeds on it, and nothing
    otherwise. So each descriptor is sent once or not at all, and what is
    sent for one attribute does not depend on the others. *)
Theorem collectDeviceMetrics_observations
    (fs : gmap string string) (t : Tables) (devicePath deviceID : string)
    (s : Sink pcieDesc) :
  let r := collectDeviceMetrics fs t devicePath deviceID s in
  let read name := readFileContent fs (Join devicePath name) in
  let infoObservation :=
    mkMetric info (float_of_Z 1)
      [deviceID;
       read "vendor"; getPCIVendorName t (read "vendor");
       read "device"; getPCIDeviceName t (read "vendor") (read "device");
       read "subsystem_vendor"; getPCIVendorName t (read "subsystem_vendor");
       read "subsystem_device";
       getPCISubsystemName t (read "vendor") (read "device")
         (read "subsystem_vendor") (read "subsystem_device");
       read "class"; getPCIClassName t (read "class");
       read "revision"] in
  r.2 = None
  ∧ ch r.1
    = ch s
      ++ infoObservation
         :: concat (map (λ '(d, file, parse),
                      blockSends d deviceID (read file) parse)
                    numericAttrs)
  ∧ sentWith info (ch r.1) = sentWith info (ch s) ++ [infoObservation]
  ∧ Forall (λ '(d, file, parse),
      sentWith d (ch r.1)
      = sentWith d (ch s)
        ++ (let raw := read file in
            if String.eqb raw "unknown" then []
            else match parse raw with
                 | Ok v => [mkMetric d v [deviceID]]
                 | Failed _ => []
                 end))
      numericAttrs
  ∧ length (labelValues infoObservation) = 12%nat.
Proof.
  cbv zeta.
  destruct (collectDeviceMetrics_sends fs t devicePath deviceID s)
    as (Herr & Hch & Hinfo & Hnum).
  split; [exact Herr|]. split; [exact Hch|]. split; [exact Hinfo|].
  split; [exact Hnum|reflexivity].
Qed.

(** C10. An attribute file whose text is ["unknown"] once trimmed reads as
    the sentinel, as the missing file does, and no call can tell the two
    inventories apart: [collectDeviceMetrics] and [Update] send the same
    observations, log the same messages and return the same error on both.
    When the file is the file of a numeric attribute, the observation of
    that attribute is not sent. When it is the file of an identifier
    ([vendor], [device], [subsystem_vendor], [subsystem_device], [class]),
    the info observation carries ["unknown"] as that id and, as the name
    beside it, what name resolution makes of the id ["unknown"]. *)
Theorem unknown_text_reads_as_missing_file
    (fs : gmap string string) (t : Tables) (devicePath deviceID : string)
    (s : Sink pcieDesc) (path content : string) :
  TrimSpace content = "unknown" →
  let present := <[path := content]> fs in
  let missing := delete path fs in
  readFileContent present path = "unknown"
  ∧ readFileContent missing path = "unknown"
  ∧ collectDeviceMetrics present t devicePath deviceID s
    = collectDeviceMetrics missing t devicePath deviceID s
  ∧ (∀ glob, Update glob present t s = Update glob missing t s)
  ∧ Forall (λ '(d, file, parse),
      path = Join devicePath file →
      sentWith d (ch (collectDeviceMetrics present t devicePath deviceID s).1)
      = sentWith d (ch s))
      numericAttrs
  ∧ (let labels := infoLabels present t devicePath deviceID in
     let read name := readFileContent present (Join devicePath name) in
     (path = Join devicePath "vendor" →
      labels !! 1%nat = Some "unknown"
      ∧ labels !! 2%nat = Some (getPCIVendorName t "unknown"))
     ∧ (path = Join devicePath "device" →
        labels !! 3%nat = Some "unknown"
        ∧ labels !! 4%nat = Some (getPCIDeviceName t (read "vendor") "unknown"))
     ∧ (path = Join devicePath "subsystem_vendor" →
        labels !! 5%nat = Some "unknown"
        ∧ labels !! 6%nat = Some (getPCIVendorName t "unknown"))
     ∧ (path = Join devicePath "subsystem_device" →
        labels !! 7%nat = Some "unknown"
        ∧ labels !! 8%nat
          = Some (getPCISubsystemName t (read "vendor") (read "device")
                    (read "subsystem_vendor") "unknown"))
     ∧ (path = Join devicePath "class" →
        labels !! 9%nat = Some "unknown"
        ∧ labels !! 10%nat = Some (getPCIClassName t "unknown"))).
Proof.
  intros Hc. cbv zeta.
  pose proof (readFileContent_unknown_text fs path content Hc) as Hext.
  split; [by rewrite readFileContent_insert|].
  split; [apply readFileContent_delete|].
  split; [by apply collectDeviceMetrics_ext|].
  split.
  { intros [devices|]; [|reflexivity]. unfold Update.
    by rewrite (updateLoop_ext _ _ t Hext). }
  split.
  - eapply List.Forall_impl;
      [|apply (sentWith_collectDeviceMetrics (<[path := content]> fs))].
    intros [[d file] parse] Hsent Hp. rewrite Hsent, <-Hp.
    rewrite readFileContent_insert, Hc. cbn. by rewrite app_nil_r.
  - unfold infoLabels.
    repeat split; subst path; rewrite readFileContent_insert, Hc; reflexivity.
Qed.

(** C10 on the sample device: the file [current_link_speed] holding
    [" unknown\n"], against the same file missing. *)
Lemma unknown_text_reads_as_missing_file_witness :
  let path := Join sampleDevice "current_link_speed" in
  let content := " unknown" +:+ String "010" "" in
  collectDeviceMetrics (<[path := content]> sampleInventory) intelTables
    sampleDevice (Base sampleDevice) emptySink
  = collectDeviceMetrics (delete path sampleInventory) intelTables
      sampleDevice (Base sampleDevice) emptySink.
Proof.
  cbv zeta.
  apply (unknown_text_reads_as_missing_file sampleInventory intelTables sampleDevice
           (Base sampleDevice) emptySink (Join sampleDevice "current_link_speed")
           (" unknown" +:+ String "010" "")).
  reflexivity.
Defined.

(** ** The scenarios of the specification, run on the sample inventory *)

Example sample_device_observations :
  ch (Update (Some [sampleDevice]) sampleInventory intelTables emptySink).1
  = [mkMetric info (float_of_Z 1)
       ["0000:00:1f.2"; "0x8086"; "Intel Corporation"; "0x1234"; "1234";
        "0x8086"; "Intel Corporation"; "0x7270"; "7270"; "0x060400";
        "Unknown class (060400)"; "0x02"];
     mkMetric currentSpeed (FNum (5 # 2)) ["0000:00:1f.2"];
     mkMetric currentWidth (float_of_Z 4) ["0000:00:1f.2"];
     mkMetric maxSpeed (float_of_Z 8) ["0000:00:1f.2"];
     mkMetric maxWidth (float_of_Z 16) ["0000:00:1f.2"];
     mkMetric powerState (float_of_Z 0) ["0000:00:1f.2"];
     mkMetric d3coldAllowed (float_of_Z 1) ["0000:00:1f.2"]].
Proof. vm_compute. reflexivity. Qed.

Example missing_attribute_scenario :
  let fs := delete (Join sampleDevice "current_link_speed") sampleInventory in
  let out := ch (Update (Some [sampleDevice]) fs intelTables emptySink).1 in
  length (sentWith info out) = 1%nat ∧ sentWith currentSpeed out = []
  ∧ length out = 6%nat.
Proof. vm_compute. repeat split. Qed.

(** * Further properties of the code

    ** The loader *)

Section more_loader_facts.
Implicit Types (l : Locals) (t : Tables) (line : string) (lines : list string).

Lemma scanLine_skipped l t line : skipped line = true → scanLine l t line = (l, t).
Proof. unfold skipped, scanLine. by intros ->. Qed.

Lemma scanLines_app lines1 : ∀ lines2 l t,
  scanLines l t (lines1 ++ lines2)
  = scanLines (scanLines l t lines1).1 (scanLines l t lines1).2 lines2.
Proof.
  induction lines1 as [|line lines1 IH]; intros lines2 l t; [reflexivity|].
  rewrite <-app_comm_cons, !scanLines_cons. apply IH.
Qed.

Lemma HasPrefix_app (a b : string) : HasPrefix (a +:+ b) a = true.
Proof.
  induction a as [|c a IH]; [by destruct b|].
  change (String c a +:+ b) with (String c (a +:+ b)). simpl.
  by rewrite Ascii.eqb_refl, IH.
Qed.

Lemma scanLine_classTablesInv l t line :
  classTablesInv l t →
  classTablesInv (scanLine l t line).1 (scanLine l t line).2.
Proof.
  intros [Hbase Hsub]. unfold scanLine.
  repeat case_match; try (by split).
  - (* a class line *)
    cbn [fst snd currentBaseClass pciClasses pciSubclasses set_pciClasses].
    split; [right; apply lookup_insert_is_Some'; by left|].
    intros k Hk. destruct (Hsub k Hk) as (c & Hc & Hin & Hpre).
    exists c. split_and!; [done| |done].
    apply lookup_insert_is_Some'. by right.
  - (* a subclass line *)
    cbn [fst snd currentBaseClass pciClasses pciSubclasses set_pciSubclasses].
    match goal with H : _ && nonempty _ = true |- _ =>
      apply andb_true_iff in H as [_ Hne] end.
    unfold nonempty in Hne. apply negb_true_iff, String.eqb_neq in Hne.
    destruct Hbase as [Hbase|Hbase]; [done|].
    split; [by right|].
    intros k Hk. cbn [pciSubclasses set_pciSubclasses] in Hk.
    apply lookup_insert_is_Some' in Hk as [<-|Hk].
    + exists (currentBaseClass l). split_and!; [done..|].
      apply HasPrefix_app.
    + by apply Hsub.
Qed.

Lemma scanLines_classTablesInv lines : ∀ l t,
  classTablesInv l t →
  classTablesInv (scanLines l t lines).1 (scanLines l t lines).2.
Proof.
  induction lines as [|line lines IH]; intros l t Hinv; [done|].
  rewrite scanLines_cons. by apply IH, scanLine_classTablesInv.
Qed.
End more_loader_facts.

(** X1. Empty lines and comment lines do not count: a run over a file is
    the run over the file without them, from any state. *)
Theorem skipped_lines_do_not_count (lines : list string) (l : Locals) (t : Tables) :
  scanLines l t lines
  = scanLines l t (List.filter (λ line, negb (skipped line)) lines).
Proof.
  revert l t. induction lines as [|line lines IH]; intros l t; [reflexivity|].
  cbn [List.filter]. destruct (skipped line) eqn:Hs; cbn [negb].
  - rewrite scanLines_cons, scanLine_skipped by done. apply IH.
  - rewrite !scanLines_cons. apply IH.
Qed.

(** X2. A run never removes an entry: every key of the vendor, class and
    subclass tables it starts from is a key afterwards, and keys it does
    not write keep their value. *)
Theorem loader_keeps_keys (lines : list string) (t : Tables) (k : string) :
  let t' := loadLines lines t in
  (is_Some (pciVendors t !! k) → is_Some (pciVendors t' !! k))
  ∧ (is_Some (pciClasses t !! k) → is_Some (pciClasses t' !! k))
  ∧ (is_Some (pciSubclasses t !! k) → is_Some (pciSubclasses t' !! k))
  ∧ (pciVendors (loadLines lines emptyTables) !! k = None →
     pciVendors t' !! k = pciVendors t !! k)
  ∧ (pciClasses (loadLines lines emptyTables) !! k = None →
     pciClasses t' !! k = pciClasses t !! k)
  ∧ (pciSubclasses (loadLines lines emptyTables) !! k = None →
     pciSubclasses t' !! k = pciSubclasses t !! k).
Proof.
  cbv zeta. unfold loadLines.
  rewrite (scanLines_overlay pciVendors eq_refl scanLine_pciVendors lines initLocals t).
  rewrite (scanLines_overlay pciClasses eq_refl scanLine_pciClasses lines initLocals t).
  rewrite (scanLines_overlay pciSubclasses eq_refl scanLine_pciSubclasses lines initLocals t).
  split_and!; try (intros H; apply lookup_union_is_Some; by right).
  all: intros H; by rewrite lookup_union_r.
Qed.

Lemma loader_keeps_keys_witness :
  is_Some (pciVendors (loadLines ["10de  NVIDIA Corporation"] intelTables) !! "8086").
Proof.
  apply (proj1 (loader_keeps_keys ["10de  NVIDIA Corporation"] intelTables "8086")).
  by eexists.
Defined.

(** X3. When no database path opens, [loadPCIIds] returns without a word
    and the tables stay as they were; from the empty tables of the start
    every resolver then gives its fallback. *)
Theorem no_database_file (open : string → option (list string)) :
  (∀ path, In path pciIdsPaths → open path = None) →
  (∀ t, loadPCIIds open t = t)
  ∧ let t := loadPCIIds open emptyTables in
    (∀ id, getPCIVendorName t id = spec_normalize id)
    ∧ (∀ v d, getPCIDeviceName t v d = spec_normalize d)
    ∧ (∀ v d sv sd, getPCISubsystemName t v d sv sd = TrimPrefix sd "0x")
    ∧ (∀ c, getPCIClassName t c = "Unknown class (" +:+ spec_normalize c +:+ ")").
Proof.
  intros Hopen.
  assert (∀ t, loadPCIIds open t = t) as Hload.
  { intros t. unfold loadPCIIds, pciIdsPaths, openFirst.
    rewrite !Hopen by (simpl; auto). reflexivity. }
  split; [exact Hload|]. cbv zeta. rewrite Hload.
  split_and!; try reflexivity.
  intros c. unfold getPCIClassName, spec_normalize. cbn [emptyTables pciClasses pciSubclasses].
  rewrite !lookup_empty. by repeat case_match.
Qed.

Lemma no_database_file_witness :
  getPCIVendorName (loadPCIIds (λ _, None) emptyTables) "0xDEAD" = "dead".
Proof.
  apply (proj1 (proj2 (no_database_file (λ _, None) (λ _ _, eq_refl)))).
Defined.

(** X4. Whatever the database file holds, device names and subsystem
    names never resolve after loading it into the empty tables: the loader
    writes neither [pciDevices] nor [pciSubsystems], so device-name
    resolution returns the normalized device id and subsystem-name
    resolution the subsystem device id without its ["0x"]. *)
Theorem device_and_subsystem_names_never_resolve
    (open : string → option (list string)) :
  let t := loadPCIIds open emptyTables in
  pciDevices t = ∅ ∧ pciSubsystems t = ∅
  ∧ (∀ v d, getPCIDeviceName t v d = spec_normalize d)
  ∧ (∀ v d sv sd, getPCISubsystemName t v d sv sd = TrimPrefix sd "0x").
Proof.
  cbv zeta.
  assert (pciDevices (loadPCIIds open emptyTables) = ∅
          ∧ pciSubsystems (loadPCIIds open emptyTables) = ∅) as [Hd Hs].
  { unfold loadPCIIds. destruct (openFirst open pciIdsPaths) as [lines|]; [|done].
    by rewrite scanLines_pciDevices, scanLines_pciSubsystems. }
  split_and!; [done..| |].
  - intros v d. unfold getPCIDeviceName. cbv zeta. by rewrite Hd, lookup_empty.
  - intros v d sv sd. unfold getPCISubsystemName. cbv zeta.
    by rewrite Hs, lookup_empty.
Qed.

(** X5. After any file is loaded into the empty tables, every key of
    [pciSubclasses] starts with a non-empty key of [pciClasses]: a subclass
    is stored under the id of the class line above it followed by its own
    id, and single-tab lines before the first class line are dropped. *)
Theorem subclass_keys_extend_class_keys (lines : list string) (k : string) :
  let t := loadLines lines emptyTables in
  is_Some (pciSubclasses t !! k) →
  ∃ c, c ≠ "" ∧ is_Some (pciClasses t !! c) ∧ HasPrefix k c = true.
Proof.
  cbv zeta. unfold loadLines.
  apply (scanLines_classTablesInv lines initLocals emptyTables).
  split; [by left|]. intros k' Hk'. cbn in Hk'. rewrite lookup_empty in Hk'.
  by destruct Hk'.
Qed.

Lemma subclass_keys_extend_class_keys_witness :
  ∃ c, c ≠ "" ∧ is_Some (pciClasses bridgeTables !! c) ∧ HasPrefix "0604" c = true.
Proof.
  apply (subclass_keys_extend_class_keys
           ["C 06  Bridge"; tab +:+ "04  PCI bridge"] "0604").
  vm_compute. by eexists.
Defined.

(** X6. A vendor line is read back by vendor-name resolution: once the
    line is scanned, every id whose normal form is the id of the line
    (trimmed) resolves to the name of the line (trimmed). *)
Theorem vendor_line_round_trip (l : Locals) (t : Tables)
    (line before after id : string) :
  line ≠ "" → HasPrefix line "#" = false → HasPrefix line "C" = false →
  HasPrefix line tab = false →
  cut line "  " = Some (before, after) →
  spec_normalize id = TrimSpace before →
  getPCIVendorName (scanLine l t line).2 id = TrimSpace after
  ∧ currentVendor (scanLine l t line).1 = TrimSpace before
  ∧ currentDevice (scanLine l t line).1 = "".
Proof.
  intros Hne Hh HC Ht Hcut Hid.
  assert (HasPrefix line (tab +:+ tab) = false) as Ht2.
  { destruct line as [|c line]; [done|]. simpl in *.
    by destruct (Ascii.eqb c "009"). }
  unfold scanLine. apply String.eqb_neq in Hne.
  rewrite Hne, Hh, HC, Ht, Ht2, (cut_SplitN2 _ _ _ _ Hcut).
  cbn [orb andb negb Nat.leb length nth fst snd currentVendor currentDevice].
  split; [|done].
  unfold getPCIVendorName. fold (spec_normalize id). rewrite Hid.
  cbn [pciVendors set_pciVendors]. by rewrite lookup_insert_eq.
Qed.

Lemma vendor_line_round_trip_witness :
  getPCIVendorName (scanLine initLocals emptyTables "8086  Intel Corporation").2
    "0x8086" = "Intel Corporation".
Proof.
  apply (vendor_line_round_trip initLocals emptyTables "8086  Intel Corporation"
           "8086" "Intel Corporation" "0x8086");
    [discriminate | reflexivity..].
Defined.

(** X7. A subclass line under a class is read back by class-name
    resolution, for ids of four bytes or more whose normal form is the id
    of the class followed by the id of the line. *)
Theorem subclass_line_round_trip (l : Locals) (t : Tables)
    (line before after classID : string) :
  currentBaseClass l ≠ "" →
  HasPrefix line tab = true → HasPrefix line (tab +:+ tab) = false →
  cut (TrimPrefix line tab) "  " = Some (before, after) →
  spec_normalize classID = currentBaseClass l +:+ TrimSpace before →
  (4 <= String.length (spec_normalize classID))%nat →
  getPCIClassName (scanLine l t line).2 classID = TrimSpace after.
Proof.
  intros Hbase Ht Ht2 Hcut Hid Hlen.
  assert ((line =? "")%string = false ∧ HasPrefix line "#" = false
          ∧ HasPrefix line "C" = false) as (He & Hh & HC).
  { destruct line as [|c line]; [discriminate|].
    simpl in Ht. apply andb_true_iff in Ht as [Hc _].
    apply Ascii.eqb_eq in Hc as ->. repeat split. }
  apply String.eqb_neq in Hbase.
  unfold scanLine, nonempty.
  rewrite He, Hh, HC, Ht, Ht2, (cut_SplitN2 _ _ _ _ Hcut), Hbase.
  cbn [orb andb negb Nat.leb length nth fst snd].
  rewrite getPCIClassName_lookups. cbv zeta.
  apply Nat.leb_le in Hlen. rewrite Hlen, Hid.
  cbn [pciSubclasses set_pciSubclasses]. by rewrite lookup_insert_eq.
Qed.

Lemma subclass_line_round_trip_witness :
  getPCIClassName
    (scanLine (mkLocals "" "" "06" "") emptyTables (tab +:+ "04  PCI bridge")).2
    "0x0604" = "PCI bridge".
Proof.
  apply (subclass_line_round_trip (mkLocals "" "" "06" "") emptyTables
           (tab +:+ "04  PCI bridge") "04" "PCI bridge" "0x0604");
    [discriminate | reflexivity.. | vm_compute; lia].
Defined.

(** ** The PCIe collector *)

Section more_collector_facts.
Implicit Types (fs : gmap string string) (t : Tables) (s : Sink pcieDesc).

Lemma blockSends_cases d deviceID raw parse :
  blockSends d deviceID raw parse = []
  ∨ ∃ v, blockSends d deviceID raw parse = [mkMetric d v [deviceID]].
Proof.
  unfold blockSends. destruct (String.eqb raw "unknown"); [by left|].
  destruct (parse raw) as [v|]; [right; by exists v|by left].
Qed.

Lemma ch_updateLoop fs t devices : ∀ s,
  ch (updateLoop fs t devices s)
  = ch s ++ concat (map (λ devicePath,
                      deviceObservations fs t devicePath (Base devicePath)) devices).
Proof.
  induction devices as [|devicePath devices IH]; intros s.
  - simpl. by rewrite app_nil_r.
  - cbn [updateLoop map concat].
    pose proof (ch_collectDeviceMetrics fs t devicePath (Base devicePath) s) as Hch.
    destruct (collectDeviceMetrics fs t devicePath (Base devicePath) s)
      as [s' [e|]] eqn:Hc; [discriminate Hc|].
    rewrite IH. cbn [fst] in Hch. rewrite Hch. unfold deviceObservations.
    by rewrite <-app_assoc.
Qed.

Lemma deviceObservations_shape fs t devicePath deviceID :
  ∃ numeric,
    deviceObservations fs t devicePath deviceID
    = mkMetric info (float_of_Z 1) (infoLabels fs t devicePath deviceID) :: numeric
    ∧ (length numeric <= 6)%nat
    ∧ Forall (λ m, desc m ≠ info ∧ labelValues m = [deviceID]) numeric.
Proof.
  eexists. split; [reflexivity|]. cbn [numericAttrs map concat].
  repeat match goal with
    | |- context [blockSends ?d ?i ?r ?p] =>
        let H := fresh in
        destruct (blockSends_cases d i r p) as [H|[? H]]; rewrite H; clear H
    end.
  all: cbn [app length]; split; [lia|].
  all: repeat constructor; done.
Qed.

Lemma logged_numericBlock fs devicePath deviceID file parse d msg s :
  map (λ e, (logSubject e, logValue e))
    (logged (numericBlock fs devicePath deviceID file parse d msg s))
  = map (λ e, (logSubject e, logValue e)) (logged s)
    ++ blockLogs deviceID (readFileContent fs (Join devicePath file)) parse.
Proof.
  unfold numericBlock, blockLogs.
  destruct (String.eqb _ "unknown"); simpl; [by rewrite app_nil_r|].
  destruct (parse _); simpl; [by rewrite app_nil_r|].
  by rewrite map_app.
Qed.
Lemma logged_collectDeviceMetrics fs t devicePath deviceID s :
  map (λ e, (logSubject e, logValue e))
    (logged (collectDeviceMetrics fs t devicePath deviceID s).1)
  = map (λ e, (logSubject e, logValue e)) (logged s)
    ++ concat (map (λ '(d, file, parse),
                 blockLogs deviceID (readFileContent fs (Join devicePath file)) parse)
               numericAttrs).
Proof.
  unfold collectDeviceMetrics. cbn [fst]. rewrite !logged_numericBlock.
  unfold send. cbn [logged numericAttrs map concat].
  by rewrite app_nil_r, <-!app_assoc.
Qed.
End more_collector_facts.


(** X9. [collectDeviceMetrics] logs a diagnostic for a numeric attribute
    exactly when its raw text is not the sentinel and its normalizer fails
    on it, with the device and the raw text; the sentinel is passed over in
    silence. So each of the six attributes gives one observation, or one
    log entry, or is the sentinel. The guard on the sentinel is about the
    log only: no normalizer accepts the text ["unknown"]. *)
Theorem collectDeviceMetrics_log (fs : gmap string string) (t : Tables)
    (devicePath deviceID : string) (s : Sink pcieDesc) :
  let r := collectDeviceMetrics fs t devicePath deviceID s in
  let read file := readFileContent fs (Join devicePath file) in
  map (λ e, (logSubject e, logValue e)) (logged r.1)
  = map (λ e, (logSubject e, logValue e)) (logged s)
    ++ concat (map (λ '(d, file, parse), blockLogs deviceID (read file) parse)
                 numericAttrs)
  ∧ (length (ch r.1) + length (logged r.1)
     + length (List.filter (λ '(d, file, parse), String.eqb (read file) "unknown")
                 numericAttrs)
     = length (ch s) + length (logged s) + 7)%nat
  ∧ Forall (λ '(d, file, parse), succeeds (parse "unknown") = false) numericAttrs.
Proof.
  cbv zeta.
  pose proof (logged_collectDeviceMetrics fs t devicePath deviceID s) as Hlog.
  split; [exact Hlog|]. split; [|by repeat constructor].
  apply (f_equal length) in Hlog. rewrite length_app, !length_map in Hlog.
  rewrite Hlog, ch_collectDeviceMetrics, length_app. clear Hlog.
  cbn [numericAttrs map concat List.filter length].
  unfold blockSends, blockLogs.
  repeat match goal with
    | |- context [String.eqb ?raw "unknown"] =>
        destruct (String.eqb raw "unknown"); cbn [app length]
    end.
  all: repeat match goal with
    | |- context [match ?p ?raw with Ok _ => _ | Failed _ => _ end] =>
        destruct (p raw); cbn [app length]
    end.
  all: lia.
Qed.

(** ** The speed and width normalizers *)

Section suffix_facts.
Implicit Types (s x suffix : string).

Lemma rev_app_app s : ∀ acc, String.rev_app s acc = String.rev_app s "" +:+ acc.
Proof.
  induction s as [|c s IH]; intros acc; [reflexivity|].
  cbn [String.rev_app]. rewrite (IH (String c acc)), (IH (String c "")).
  generalize (String.rev_app s ""). intros r.
  induction r as [|c' r IHr]; [reflexivity|].
  change (String c' r +:+ String c acc) with (String c' (r +:+ String c acc)).
  by rewrite IHr.
Qed.

Lemma rev_append x suffix :
  String.rev (x +:+ suffix) = String.rev suffix +:+ String.rev x.
Proof.
  unfold String.rev. generalize "" at 1 3. induction x as [|c x IH]; intros acc.
  - change ("" +:+ suffix) with suffix. cbn [String.rev_app]. apply rev_app_app.
  - change (String c x +:+ suffix) with (String c (x +:+ suffix)).
    cbn [String.rev_app]. apply IH.
Qed.

Lemma HasSuffix_append x suffix : HasSuffix (x +:+ suffix) suffix = true.
Proof. unfold HasSuffix. rewrite rev_append. apply HasPrefix_app. Qed.

Lemma length_append x suffix :
  String.length (x +:+ suffix) = (String.length x + String.length suffix)%nat.
Proof.
  induction x as [|c x IH]; [reflexivity|].
  change (String c x +:+ suffix) with (String c (x +:+ suffix)).
  cbn [String.length]. by rewrite IH.
Qed.

Lemma take_bytes_append x suffix :
  take_bytes (String.length x) (x +:+ suffix) = x.
Proof.
  induction x as [|c x IH]; [reflexivity|].
  change (String c x +:+ suffix) with (String c (x +:+ suffix)).
  cbn [String.length take_bytes]. by rewrite IH.
Qed.

Lemma TrimSuffix_append x suffix : TrimSuffix (x +:+ suffix) suffix = x.
Proof.
  unfold TrimSuffix. rewrite HasSuffix_append, length_append.
  replace (String.length x + String.length suffix - String.length suffix)%nat
    with (String.length x) by lia.
  apply take_bytes_append.
Qed.
End suffix_facts.

(** X10. The unit of a link speed is dropped before the number is parsed:
    a text ending in [" GT/s"] parses as what stands before it, trimmed,
    and a text ending in [" GT/s PCIe"] as what stands before that, less
    one more [" GT/s"] if there is one. A width written [x]N parses as N. *)
Theorem speed_and_width_units (x : string) :
  parseSpeed (x +:+ " GT/s") = ParseFloat (TrimSpace x)
  ∧ parseSpeed (x +:+ " GT/s PCIe")
    = ParseFloat (TrimSpace (TrimSuffix x " GT/s"))
  ∧ parseWidth ("x" +:+ x) = ParseFloat (TrimSpace x).
Proof.
  split_and!; [| |reflexivity].
  - unfold parseSpeed.
    assert (TrimSuffix (x +:+ " GT/s") " GT/s PCIe" = x +:+ " GT/s") as ->.
    { unfold TrimSuffix, HasSuffix. by rewrite rev_append. }
    by rewrite TrimSuffix_append.
  - unfold parseSpeed. by rewrite TrimSuffix_append.
Qed.

(** ** The systemd collector *)

Section more_systemd_facts.
Implicit Types (s : Sink systemdDesc) (unit : UnitStatus).

Local Ltac by_names w :=
  repeat lazymatch goal with
    | |- context [(w =? ?lit)%string] =>
        destruct (w =? lit)%string eqn:?; simpl
    end.

Lemma position_systemdSubStates_range (w : string) :
  0 <= position w systemdSubStates <= 8.
Proof. unfold systemdSubStates. simpl. by_names w; lia. Qed.

Lemma position_systemdLoadStates_range (w : string) :
  0 <= position w systemdLoadStates <= 4.
Proof. unfold systemdLoadStates. simpl. by_names w; lia. Qed.

Lemma SystemdServices_parseSystemdSubState_position subState :
  SystemdServices.parseSystemdSubState subState
  = float_of_Z (position (ToLower subState) systemdSubStates).
Proof.
  unfold SystemdServices.parseSystemdSubState, systemdSubStates. cbv zeta.
  generalize (ToLower subState) as w. intros w. simpl. by_names w; reflexivity.
Qed.

Lemma Part000_parseSystemdSubState_position subState :
  Part000.parseSystemdSubState subState
  = (if position (ToLower subState) systemdSubStates =? 0
     then Failed (Errorf ("unknown systemd sub-state: " +:+ subState))
     else Ok (float_of_Z (position (ToLower subState) systemdSubStates))).
Proof.
  unfold Part000.parseSystemdSubState, systemdSubStates. cbv zeta.
  generalize (ToLower subState) as w. intros w. simpl. by_names w; reflexivity.
Qed.

Lemma SystemdServices_parseSystemdLoadState_position loadState :
  SystemdServices.parseSystemdLoadState loadState
  = float_of_Z (position (ToLower loadState) systemdLoadStates).
Proof.
  unfold SystemdServices.parseSystemdLoadState, systemdLoadStates. cbv zeta.
  generalize (ToLower loadState) as w. intros w. simpl. by_names w; reflexivity.
Qed.

Lemma Part000_parseSystemdLoadState_position loadState :
  Part000.parseSystemdLoadState loadState
  = (if position (ToLower loadState) systemdLoadStates =? 0
     then Failed (Errorf ("unknown systemd load state: " +:+ loadState))
     else Ok (float_of_Z (position (ToLower loadState) systemdLoadStates))).
Proof.
  unfold Part000.parseSystemdLoadState, systemdLoadStates. cbv zeta.
  generalize (ToLower loadState) as w. intros w. simpl. by_names w; reflexivity.
Qed.

End more_systemd_facts.

(** X11. The two variants of the sub-state parser: with [n] the position
    of the lowered text among running, exited, failed, dead, start, stop,
    reload, auto-restart (0 when it is none of them), the variant of
    [systemdservices_linux.go] returns [n] and the variant of [part_000]
    returns [n] when it is 1 to 8 and the error "unknown systemd sub-state"
    with the text as given when it is 0. *)
Theorem parseSystemdSubState_variants (subState : string) :
  let n := position (ToLower subState) systemdSubStates in
  0 <= n <= 8
  ∧ SystemdServices.parseSystemdSubState subState = float_of_Z n
  ∧ Part000.parseSystemdSubState subState
    = (if n =? 0 then Failed (Errorf ("unknown systemd sub-state: " +:+ subState))
       else Ok (float_of_Z n)).
Proof.
  cbv zeta. split; [apply position_systemdSubStates_range|].
  split; [apply SystemdServices_parseSystemdSubState_position|].
  apply Part000_parseSystemdSubState_position.
Qed.

(** X12. The two variants of the load-state parser, in the same way, on
    loaded, error, masked, not-found. *)
Theorem parseSystemdLoadState_variants (loadState : string) :
  let n := position (ToLower loadState) systemdLoadStates in
  0 <= n <= 4
  ∧ SystemdServices.parseSystemdLoadState loadState = float_of_Z n
  ∧ Part000.parseSystemdLoadState loadState
    = (if n =? 0 then Failed (Errorf ("unknown systemd load state: " +:+ loadState))
       else Ok (float_of_Z n)).
Proof.
  cbv zeta. split; [apply position_systemdLoadStates_range|].
  split; [apply SystemdServices_parseSystemdLoadState_position|].
  apply Part000_parseSystemdLoadState_position.
Qed.



(** X13. [collectServiceMetrics] of [systemdservices_linux.go] always
    returns, without an error and without a log entry, having sent four
    observations: info, state, sub-state and load state, in this order,
    each state with the position of its lowered text among the names as
    its value (0 when it is none of them). The type label of the info
    observation is the type property when it is read and is a string that
    is not empty, and ["unknown"] when the property cannot be read, is not
    a string, or is the empty string; so it is never empty. *)
Theorem SystemdServices_collectServiceMetrics_sends_four
    (conn : string → option Variant) (unit : UnitStatus) (s : Sink systemdDesc) :
  let serviceType :=
    match conn (Name unit) with
    | Some (VString v) => if String.eqb v "" then "unknown" else v
    | Some VOther => "unknown"
    | None => "unknown"
    end in
  serviceType ≠ ""
  ∧ SystemdServices.collectServiceMetrics conn unit s
    = Returned
        (mkSink
           (ch s ++
            [mkMetric serviceInfo (float_of_Z 1) [Name unit; serviceType];
             mkMetric serviceState
               (float_of_Z (position (ToLower (ActiveState unit)) systemdStates))
               [Name unit];
             mkMetric serviceSubState
               (float_of_Z (position (ToLower (SubState unit)) systemdSubStates))
               [Name unit];
             mkMetric serviceLoadState
               (float_of_Z (position (ToLower (LoadState unit)) systemdLoadStates))
               [Name unit]])
           (logged s),
         None).
Proof.
  cbv zeta. split.
  - destruct (conn (Name unit)) as [[v|]|]; try done.
    destruct (String.eqb v "") eqn:Hv; [done|]. by apply String.eqb_neq.
  - unfold SystemdServices.collectServiceMetrics, send. cbn [ch logged].
    rewrite <-!app_assoc. cbn [app].
    rewrite SystemdServices_parseSystemdState_position,
      SystemdServices_parseSystemdSubState_position,
      SystemdServices_parseSystemdLoadState_position.
    destruct (conn (Name unit)) as [[v|]|]; try reflexivity.
    by destruct (String.eqb v "").
Qed.

Lemma stateBlock_position (unit : UnitStatus) (parse : string → result)
    (names : list string) (raw errmsg : string) (d : systemdDesc) (msg : string)
    (s : Sink systemdDesc) :
  parse raw = (if position (ToLower raw) names =? 0 then Failed (Errorf errmsg)
               else Ok (float_of_Z (position (ToLower raw) names))) →
  Part000.stateBlock unit parse raw d msg s
  = mkSink (ch s ++ stateSends d (Name unit) names raw)
           (logged s ++ stateLogs msg (Name unit) names raw).
Proof.
  intros Hparse. unfold Part000.stateBlock, stateSends, stateLogs.
  rewrite Hparse. destruct (position (ToLower raw) names =? 0).
  - unfold Debug. by rewrite app_nil_r.
  - unfold send. by rewrite app_nil_r.
Qed.

(** X14. [collectServiceMetrics] of [part_000] panics, before it sends
    anything, exactly when the type property is read and is not a string.
    Otherwise it returns without an error, having sent the info observation
    first (with the type as read, also when it is empty, and ["unknown"]
    when the read fails) and then, for the state, the sub-state and the
    load state in this order, each under its own descriptor and against
    its own names: the observation, with the position of the lowered text
    as its value, when the text is one of the names, and otherwise the log
    entry of that block with the unit and the text. Each of the three is
    thus either sent or logged. *)
Theorem Part000_collectServiceMetrics_cases
    (conn : string → option Variant) (unit : UnitStatus) (s : Sink systemdDesc) :
  let name := Name unit in
  match conn name with
  | Some VOther => Part000.collectServiceMetrics conn unit s = Panicked s
  | other =>
      Part000.collectServiceMetrics conn unit s
      = Returned
          (mkSink
             (ch s
              ++ mkMetric serviceInfo (float_of_Z 1)
                   [name; match other with Some (VString v) => v | _ => "unknown" end]
                 :: stateSends serviceState name systemdStates (ActiveState unit)
                 ++ stateSends serviceSubState name systemdSubStates (SubState unit)
                 ++ stateSends serviceLoadState name systemdLoadStates (LoadState unit))
             (logged s
              ++ stateLogs "failed to parse systemd state" name systemdStates
                   (ActiveState unit)
              ++ stateLogs "failed to parse systemd sub-state" name systemdSubStates
                   (SubState unit)
              ++ stateLogs "failed to parse systemd load state" name
                   systemdLoadStates (LoadState unit)),
           None)
  end
  ∧ Forall (λ '(d, msg, names, raw),
      (length (stateSends d name names raw)
       + length (stateLogs msg name names raw) = 1)%nat)
      [(serviceState, "failed to parse systemd state", systemdStates,
        ActiveState unit);
       (serviceSubState, "failed to parse systemd sub-state", systemdSubStates,
        SubState unit);
       (serviceLoadState, "failed to parse systemd load state", systemdLoadStates,
        LoadState unit)].
Proof.
  cbv zeta. split.
  - unfold Part000.collectServiceMetrics.
    destruct (conn (Name unit)) as [[v|]|]; [|reflexivity|].
    all: rewrite (stateBlock_position unit Part000.parseSystemdState systemdStates
                    _ _ _ _ _ (Part000_parseSystemdState_position _)).
    all: rewrite (stateBlock_position unit Part000.parseSystemdSubState
                    systemdSubStates _ _ _ _ _
                    (Part000_parseSystemdSubState_position _)).
    all: rewrite (stateBlock_position unit Part000.parseSystemdLoadState
                    systemdLoadStates _ _ _ _ _
                    (Part000_parseSystemdLoadState_position _)).
    all: unfold send; cbn [ch logged].
    all: by rewrite <-!app_assoc.
  - repeat (apply List.Forall_cons; [|]); try apply List.Forall_nil.
    all: unfold stateSends, stateLogs; by destruct (_ =? 0).
Qed.

Section systemd_update_facts.
Implicit Types (s : Sink systemdDesc) (unit : UnitStatus) (units : list UnitStatus).

Lemma Sink_eta {D} (s : Sink D) : s = mkSink (ch s) (logged s).
Proof. by destruct s. Qed.



End systemd_update_facts.



(** ** The kernel module collector *)

Section kernel_module_facts.
Import KernelModules.
Implicit Types (s : Sink moduleDesc) (line : string).

Lemma fieldsLoop_nonempty (text : string) : ∀ skip cur,
  Forall (λ field, field ≠ "") (fieldsLoop skip cur text).
Proof.
  assert (∀ cur, Forall (λ field, field ≠ "") (flushField cur)) as Hflush.
  { intros cur. unfold flushField. destruct (String.eqb cur "") eqn:H; [done|].
    apply String.eqb_neq in H. by repeat constructor. }
  induction text as [|c text IH]; intros skip cur; [apply Hflush|].
  cbn [fieldsLoop]. destruct skip as [|k]; [|apply IH].
  destruct (space_len (String c text)); [apply IH|].
  apply Forall_app. split; [apply Hflush|apply IH].
Qed.

Lemma Fields_first_nonempty (text : string) :
  (1 <= length (Fields text))%nat → nth 0 (Fields text) "" ≠ "".
Proof.
  intros Hlen. pose proof (fieldsLoop_nonempty text 0 "") as Hall.
  fold (Fields text) in Hall. destruct (Fields text) as [|field fields];
    [simpl in Hlen; lia|].
  by apply Forall_cons in Hall as [? _].
Qed.

Lemma stateValue_range (state : string) (v : float64) :
  stateValue state = Some v →
  v = float_of_Z 1 ∨ v = float_of_Z 0 ∨ v = float_of_Z (-1).
Proof.
  unfold stateValue. repeat case_match; intros [= <-]; auto.
Qed.


End kernel_module_facts.

Lemma stateValue_spec (state : string) :
  KernelModules.stateValue state = float_of_Z <$> spec_moduleState state.
Proof.
  unfold KernelModules.stateValue, spec_moduleState. by repeat case_match.
Qed.

(** X17. The kernel module collector takes a line of [/proc/modules] as a
    whole or not at all. A line of fewer than five fields is passed over
    in silence. A line of five fields or more whose size does not parse,
    or else whose reference count does not parse, or else whose state (the
    fifth field) is none of [Live], [Loading], [Unloading] as written,
    gives the warning of that case on the module and no observation. Any
    other line gives exactly three observations and no warning: the state,
    1 for [Live], 0 for [Loading], -1 for [Unloading]; the size, parsed
    from the second field; the reference count, parsed from the third;
    each labelled with the module name, the first field, which is not
    empty. *)
Theorem scanModule_all_or_nothing (line : string)
    (s : Sink KernelModules.moduleDesc) :
  let parts := Fields line in
  let module := nth 0 parts "" in
  let sizeStr := nth 1 parts "" in
  let refcountStr := nth 2 parts "" in
  let state := nth 4 parts "" in
  ∃ new newlog,
    KernelModules.scanModule line s = mkSink (ch s ++ new) (logged s ++ newlog)
    ∧ if (length parts <? 5)%nat then new = [] ∧ newlog = []
      else
        match ParseFloat sizeStr, ParseFloat refcountStr, spec_moduleState state with
        | Failed _, _, _ =>
            new = []
            ∧ newlog = [mkLogEntry "failed to parse kernel module size"
                          module sizeStr]
        | Ok _, Failed _, _ =>
            new = []
            ∧ newlog = [mkLogEntry "failed to parse kernel module refcount"
                          module refcountStr]
        | Ok _, Ok _, None =>
            new = []
            ∧ newlog = [mkLogEntry "unknown kernel module state" module state]
        | Ok size, Ok refcount, Some v =>
            module ≠ "" ∧ newlog = []
            ∧ new = [mkMetric KernelModules.moduleState (float_of_Z v) [module];
                     mkMetric KernelModules.moduleSize size [module];
                     mkMetric KernelModules.moduleRefcount refcount [module]]
        end.
Proof.
  cbv zeta. unfold KernelModules.scanModule. cbv zeta.
  rewrite stateValue_spec.
  destruct (length (Fields line) <? 5)%nat eqn:Hlen.
  { exists [], []. rewrite !app_nil_r. split; [apply Sink_eta|done]. }
  apply Nat.ltb_ge in Hlen.
  destruct (ParseFloat (nth 1 (Fields line) "")) as [size|e1].
  2: { eexists [], [_]. rewrite app_nil_r. by split. }
  destruct (ParseFloat (nth 2 (Fields line) "")) as [refcount|e2].
  2: { eexists [], [_]. rewrite app_nil_r. by split. }
  destruct (spec_moduleState (nth 4 (Fields line) "")) as [v|]; cbn [fmap option_fmap option_map].
  2: { eexists [], [_]. rewrite app_nil_r. by split. }
  eexists [_; _; _], []. rewrite app_nil_r.
  unfold send. cbn [ch logged]. rewrite <-!app_assoc.
  split; [reflexivity|]. split; [|done].
  apply Fields_first_nonempty. lia.
Qed.


(** ** More on the PCIe collector *)

Section path_facts.
Implicit Types (dir name : string).

Lemma lastElement_join dir name :
  existsb (Ascii.eqb "/") (list_ascii_of_string name) = false →
  lastElement (dir +:+ "/" +:+ name) = name.
Proof.
  intros Hname. induction dir as [|c dir IH].
  - change ("" +:+ "/" +:+ name) with (String "/" name).
    cbn [lastElement]. by rewrite Hname.
  - change (String c dir +:+ "/" +:+ name) with (String c (dir +:+ "/" +:+ name)).
    cbn [lastElement].
    replace (existsb (Ascii.eqb "/") (list_ascii_of_string (dir +:+ "/" +:+ name)))
      with true; [exact IH|].
    symmetry. clear. induction dir as [|c dir IH]; [reflexivity|].
    change (String c dir +:+ "/" +:+ name) with (String c (dir +:+ "/" +:+ name)).
    cbn [list_ascii_of_string existsb]. by rewrite IH, orb_true_r.
Qed.

Lemma list_ascii_rev_app (s : string) : ∀ acc,
  list_ascii_of_string (String.rev_app s acc)
  = rev (list_ascii_of_string s) ++ list_ascii_of_string acc.
Proof.
  induction s as [|c s IH]; intros acc; [reflexivity|].
  cbn [String.rev_app list_ascii_of_string rev]. rewrite IH.
  by rewrite <-app_assoc.
Qed.

Lemma HasSuffix_slash_element dir name :
  isElement name = true → HasSuffix (dir +:+ name) "/" = false.
Proof.
  unfold isElement. intros [Hne Hno]%andb_true_iff.
  apply negb_true_iff in Hne, Hno. apply String.eqb_neq in Hne.
  unfold HasSuffix. rewrite rev_append.
  assert (existsb (Ascii.eqb "/") (list_ascii_of_string (String.rev name)) = false)
    as Hrev.
  { unfold String.rev. rewrite list_ascii_rev_app, app_nil_r.
    apply not_true_is_false. intros (c & Hin & Hc)%existsb_exists.
    apply in_rev in Hin.
    assert (existsb (Ascii.eqb "/") (list_ascii_of_string name) = true);
      [|congruence].
    apply existsb_exists. eauto. }
  assert (String.rev name ≠ "") as Hrne.
  { intros Hr. apply (f_equal String.length) in Hr.
    assert (∀ s acc, String.length (String.rev_app s acc)
                     = (String.length s + String.length acc)%nat) as Hlen.
    { clear. induction s as [|c s IH]; intros acc; [reflexivity|].
      cbn [String.rev_app String.length]. rewrite IH. cbn [String.length]. lia. }
    unfold String.rev in Hr. rewrite Hlen in Hr.
    destruct name; [done|]. simpl in Hr. lia. }
  destruct (String.rev name) as [|c r]; [done|].
  change (String c r +:+ String.rev dir) with (String c (r +:+ String.rev dir)).
  cbn [list_ascii_of_string existsb] in Hrev.
  change (String.rev "/") with "/". cbn [HasPrefix].
  apply orb_false_iff in Hrev as [Hc _].
  rewrite Ascii.eqb_sym in Hc. by rewrite Hc.
Qed.

Lemma Base_join dir name :
  isElement name = true → Base (dir +:+ "/" +:+ name) = name.
Proof.
  intros Hname. pose proof Hname as [Hne Hno]%andb_true_iff.
  apply negb_true_iff in Hne, Hno.
  unfold Base.
  assert ((dir +:+ "/" +:+ name =? "")%string = false) as ->.
  { apply String.eqb_neq. intros H. apply (f_equal String.length) in H.
    rewrite !length_append in H. simpl in H. lia. }
  assert (∀ fuel, trimTrailingSlashes fuel (dir +:+ "/" +:+ name)
                  = dir +:+ "/" +:+ name) as ->.
  { intros [|fuel]; [reflexivity|]. cbn [trimTrailingSlashes].
    replace (dir +:+ "/" +:+ name) with ((dir +:+ "/") +:+ name) at 1.
    - by rewrite HasSuffix_slash_element.
    - clear. induction dir as [|c dir IH]; [reflexivity|].
      change (String c dir +:+ "/") with (String c (dir +:+ "/")).
      change (String c (dir +:+ "/") +:+ name)
        with (String c ((dir +:+ "/") +:+ name)).
      by rewrite IH. }
  rewrite lastElement_join by done. by rewrite Hne.
Qed.
End path_facts.

(** X19. The slot label is the name of the device directory: for a device
    listed as [dir/name], with [name] a path element, every observation the
    poll sends for it has [name] as its first label. *)
Theorem slot_label_is_directory_name (dir name : string)
    (fs : gmap string string) (t : Tables) (s : Sink pcieDesc) :
  isElement name = true →
  ∃ new,
    ch (Update (Some [dir +:+ "/" +:+ name]) fs t s).1 = ch s ++ new
    ∧ new ≠ [] ∧ Forall (λ m, firstLabel m = name) new.
Proof.
  intros Hname. unfold Update. cbn [fst]. rewrite ch_updateLoop.
  cbn [map concat]. rewrite app_nil_r, (Base_join dir name Hname).
  eexists. split; [reflexivity|].
  destruct (deviceObservations_shape fs t (dir +:+ "/" +:+ name) name)
    as (numeric & -> & _ & Hnum).
  split; [done|]. apply List.Forall_cons; [reflexivity|].
  eapply List.Forall_impl; [|exact Hnum].
  intros m [_ Hm]. unfold firstLabel. by rewrite Hm.
Qed.

Lemma slot_label_is_directory_name_witness :
  ∃ new,
    ch (Update (Some [sampleDevice]) sampleInventory intelTables emptySink).1
    = ch emptySink ++ new
    ∧ new ≠ [] ∧ Forall (λ m, firstLabel m = "0000:00:1f.2") new.
Proof.
  apply (slot_label_is_directory_name "/sys/bus/pci/devices" "0000:00:1f.2"
           sampleInventory intelTables emptySink).
  reflexivity.
Defined.

(** X20. An attribute file that exists and is empty, or holds white space
    only, is not the sentinel: its text is the empty string, on which every
    normalizer fails. For a numeric attribute no observation is sent and a
    diagnostic is logged. *)
Theorem empty_attribute_file (fs : gmap string string) (t : Tables)
    (devicePath deviceID : string) (s : Sink pcieDesc)
    (d : pcieDesc) (file content : string) (parse : string → result) :
  In (d, file, parse) numericAttrs →
  fs !! Join devicePath file = Some content →
  TrimSpace content = "" →
  let r := collectDeviceMetrics fs t devicePath deviceID s in
  readFileContent fs (Join devicePath file) = ""
  ∧ sentWith d (ch r.1) = sentWith d (ch s)
  ∧ In (deviceID, "") (map (λ e, (logSubject e, logValue e)) (logged r.1)).
Proof.
  intros Hin Hfs Hc. cbv zeta.
  assert (readFileContent fs (Join devicePath file) = "") as Hread.
  { unfold readFileContent. by rewrite Hfs. }
  split; [exact Hread|].
  pose proof (sentWith_collectDeviceMetrics fs t devicePath deviceID s) as Hall.
  rewrite List.Forall_forall in Hall. specialize (Hall _ Hin). cbn beta iota in Hall.
  rewrite Hall, Hread. clear Hall.
  assert (succeeds (parse "") = false) as Hparse.
  { cbn in Hin. repeat (destruct Hin as [[= <- <- <-]|Hin]; [reflexivity|]).
    done. }
  split.
  - unfold blockSends. cbn [String.eqb].
    destruct (parse "") as [v|e]; [discriminate|]. by rewrite app_nil_r.
  - rewrite logged_collectDeviceMetrics. apply in_or_app. right.
    apply in_concat. exists [(deviceID, "")]. split; [|by left].
    apply in_map_iff. exists (d, file, parse). split; [|exact Hin].
    rewrite Hread. unfold blockLogs. cbn [String.eqb].
    by destruct (parse "") as [v|e].
Qed.

Lemma empty_attribute_file_witness :
  let fs := <[Join sampleDevice "power_state" := String "010" ""]> sampleInventory in
  readFileContent fs (Join sampleDevice "power_state") = ""
  ∧ sentWith powerState
      (ch (collectDeviceMetrics fs intelTables sampleDevice "0000:00:1f.2"
             emptySink).1)
    = sentWith powerState (ch emptySink)
  ∧ In ("0000:00:1f.2", "")
      (map (λ e, (logSubject e, logValue e))
         (logged (collectDeviceMetrics fs intelTables sampleDevice "0000:00:1f.2"
                    emptySink).1)).
Proof.
  cbv zeta.
  apply (empty_attribute_file
           (<[Join sampleDevice "power_state" := String "010" ""]> sampleInventory)
           intelTables sampleDevice "0000:00:1f.2" emptySink
           powerState "power_state" (String "010" "") parsePowerState).
  - cbn. tauto.
  - apply lookup_insert_eq.
  - reflexivity.
Defined.

(** X21. A class line is read back by class-name resolution as the
    fallback of its subclasses: once the line is scanned, an id whose
    normal form starts with the two bytes of the class id, and is not
    itself a key of [pciSubclasses], resolves to the name of the line. *)
Theorem class_line_round_trip (l : Locals) (t : Tables)
    (line before after classID : string) :
  HasPrefix line "C" = true →
  cut line "  " = Some (before, after) →
  (2 <= String.length (spec_normalize classID))%nat →
  take_bytes 2 (spec_normalize classID) = TrimSpace (drop_bytes 1 before) →
  pciSubclasses t !! spec_normalize classID = None →
  getPCIClassName (scanLine l t line).2 classID = TrimSpace after
  ∧ currentBaseClass (scanLine l t line).1 = TrimSpace (drop_bytes 1 before).
Proof.
  intros HC Hcut Hlen Hkey Hsub.
  assert ((line =? "")%string = false ∧ HasPrefix line "#" = false) as (He & Hh).
  { destruct line as [|c line]; [discriminate|].
    simpl in HC. apply andb_true_iff in HC as [Hc _].
    apply Ascii.eqb_eq in Hc as ->. by split. }
  unfold scanLine. rewrite He, Hh, HC, (cut_SplitN2 _ _ _ _ Hcut).
  cbn [orb Nat.leb length nth fst snd currentBaseClass]. split; [|done].
  rewrite getPCIClassName_lookups. cbv zeta.
  cbn [pciSubclasses pciClasses set_pciClasses].
  apply Nat.leb_le in Hlen. rewrite Hlen, Hkey, Hsub, lookup_insert_eq.
  by destruct (4 <=? String.length (spec_normalize classID))%nat.
Qed.

Lemma class_line_round_trip_witness :
  getPCIClassName (scanLine initLocals emptyTables "C 06  Bridge").2 "0x060400"
  = "Bridge".
Proof.
  apply (class_line_round_trip initLocals emptyTables "C 06  Bridge" "C 06" "Bridge"
           "0x060400"); [reflexivity | reflexivity | vm_compute; lia | reflexivity..].
Defined.
